(** * hugh: date/time parsing and US phone number normalisation

    A shallow embedding of [hugh/i18n.py] ([parse_datetime],
    [format_system_datetime]) and of [USPhoneNumberField.convert] from
    [hugh/localized/us/__init__.py].

    The program is Python 2 code: a [str] is a sequence of 8-bit characters,
    which is what [Stdlib.Strings.String.string] is.  The two standard
    library services the code calls, [time.strptime] and the [re] module,
    are modelled after CPython 2.x ([Lib/_strptime.py] and the backtracking
    semantics of [re]), restricted to the constructs the program's patterns
    use. *)

From Stdlib Require Import ZArith List Bool Lia.
From Stdlib Require Import Strings.Ascii Strings.String.
From Stdlib Require Import Numbers.DecimalString.
Import ListNotations.

Open Scope string_scope.
Open Scope Z_scope.

(** ** Characters *)

Module Chars.

Definition code (c : ascii) : N := N_of_ascii c.

Definition in_range (lo hi c : ascii) : bool :=
  ((code lo <=? code c) && (code c <=? code hi))%N.

(** [\d] of a Python 2 pattern compiled without [re.UNICODE]. *)
Definition is_digit (c : ascii) : bool := in_range "0" "9" c.

(** [\s] of a Python 2 pattern compiled without [re.UNICODE]:
    space, [\t], [\n], [\v], [\f], [\r]. *)
Definition is_space (c : ascii) : bool :=
  Ascii.eqb c " " || in_range "009" "013" c.

(** [str.lower] on one character: only [A-Z] change. *)
Definition lower_ascii (c : ascii) : ascii :=
  if in_range "A" "Z" c then ascii_of_N (code c + 32) else c.

Fixpoint lower (s : string) : string :=
  match s with
  | EmptyString => EmptyString
  | String c s' => String (lower_ascii c) (lower s')
  end.

(** A literal character of a pattern compiled with [re.IGNORECASE]. *)
Definition lit_i (c x : ascii) : bool :=
  Ascii.eqb (lower_ascii x) (lower_ascii c).

(** A literal character of a case-sensitive pattern. *)
Definition lit (c x : ascii) : bool := Ascii.eqb x c.

Fixpoint all (p : ascii -> bool) (s : string) : bool :=
  match s with
  | EmptyString => true
  | String c s' => p c && all p s'
  end.

(** Value of a decimal digit character. *)
Definition digit_val (c : ascii) : Z := Z.of_N (code c) - 48.

End Chars.
Import Chars.

(** ** Backtracking regular expressions

  The fragment of [re] that the program's patterns need: character
  classes, sequence, ordered alternation, the greedy [+] on a class and
  capture groups.  [rmatch] is written in continuation-passing style: the
  continuation is "the rest of the pattern", and an alternative is
  abandoned for the next one exactly when the continuation fails, which is
  the order in which [re] explores matches. *)

Module Regex.

Inductive re : Type :=
| Eps : re
| Cls : (ascii -> bool) -> re
| Seq : re -> re -> re
| Alt : re -> re -> re
| Plus : (ascii -> bool) -> re
| Grp : string -> re -> re.

(** Captured groups, in the order the groups occur in the pattern. *)
Definition caps : Type := list (string * string).

Section Matcher.
Context {A : Type}.

(** Greedy [p*]: take as many characters as possible, give back one at
    a time while the continuation fails. *)
Fixpoint star (p : ascii -> bool) (s : string)
         (k : string -> string -> option A) : option A :=
  match s with
  | String c s' =>
      if p c then
        match star p s' (fun m rest => k (String c m) rest) with
        | Some x => Some x
        | None => k EmptyString s
        end
      else k EmptyString s
  | EmptyString => k EmptyString s
  end.

(** [rmatch r s k]: match [r] at the start of [s]; [k] receives the
    matched text, the groups captured inside [r] and the remaining
    input. *)
Fixpoint rmatch (r : re) (s : string)
         (k : string -> caps -> string -> option A) : option A :=
  match r with
  | Eps => k EmptyString [] s
  | Cls p =>
      match s with
      | String c s' => if p c then k (String c EmptyString) [] s' else None
      | EmptyString => None
      end
  | Seq r1 r2 =>
      rmatch r1 s (fun m1 c1 s1 =>
        rmatch r2 s1 (fun m2 c2 s2 => k (m1 ++ m2) (c1 ++ c2)%list s2))
  | Alt r1 r2 =>
      match rmatch r1 s k with
      | Some x => Some x
      | None => rmatch r2 s k
      end
  | Plus p =>
      match s with
      | String c s' =>
          if p c then star p s' (fun m rest => k (String c m) [] rest)
          else None
      | EmptyString => None
      end
  | Grp n r' => rmatch r' s (fun m c s' => k m ((n, m) :: c) s')
  end.
End Matcher.

(** [pattern.match(s)]: the first match in backtracking order, anchored at
    the start only.  Returns the matched text, the groups and what is left
    of the input. *)
Definition re_match (r : re) (s : string) : option (string * caps * string) :=
  rmatch r s (fun m c rest => Some (m, c, rest)).

(** [$] without [re.MULTILINE]: the end of the input, or just before a
    newline that ends the input. *)
Definition at_end (s : string) : bool :=
  match s with
  | EmptyString => true
  | String c EmptyString => Ascii.eqb c "010"
  | _ => false
  end.

(** [pattern.match(s)] for a pattern that ends in [$]: the end test is the
    last step of the pattern, so a failure there backtracks. *)
Definition re_match_dollar (r : re) (s : string) : option (string * caps) :=
  rmatch r s (fun m c rest => if at_end rest then Some (m, c) else None).

(** [match.groupdict()[name]] *)
Fixpoint group (name : string) (c : caps) : option string :=
  match c with
  | [] => None
  | (n, v) :: c' => if String.eqb n name then Some v else group name c'
  end.

(** Declarative reading of a pattern: [matches r m c] when [r] can match
    exactly the text [m], capturing [c]. *)
Inductive matches : re -> string -> caps -> Prop :=
| MEps : matches Eps EmptyString []
| MCls p c : p c = true -> matches (Cls p) (String c EmptyString) []
| MSeq r1 r2 m1 m2 c1 c2 :
    matches r1 m1 c1 -> matches r2 m2 c2 ->
    matches (Seq r1 r2) (m1 ++ m2) (c1 ++ c2)%list
| MAltL r1 r2 m c : matches r1 m c -> matches (Alt r1 r2) m c
| MAltR r1 r2 m c : matches r2 m c -> matches (Alt r1 r2) m c
| MPlus p c m : p c = true -> all p m = true ->
    matches (Plus p) (String c m) []
| MGrp n r m c : matches r m c -> matches (Grp n r) m ((n, m) :: c).

End Regex.
Import Regex.

(** ** Exceptions and results *)

Inductive exn : Type :=
| ValueError (msg : string)
| ValidationError (msg : string).

Inductive result (A : Type) : Type :=
| Ok (a : A)
| Raise (e : exn).
Arguments Ok {A} a.
Arguments Raise {A} e.

(** ** [datetime.datetime] and [datetime.date] *)

Module Datetime.

Record datetime : Type := mk_datetime {
  year : Z; month : Z; day : Z;
  hour : Z; minute : Z; second : Z; microsecond : Z }.

Definition is_leap (y : Z) : bool :=
  (y mod 4 =? 0) && (negb (y mod 100 =? 0) || (y mod 400 =? 0)).

Definition days_in_month (y m : Z) : Z :=
  if m =? 2 then (if is_leap y then 29 else 28)
  else if (m =? 4) || (m =? 6) || (m =? 9) || (m =? 11) then 30
  else 31.

(** The range checks of the [date] constructor (it raises [ValueError]
    when they fail). *)
Definition valid_date (y m d : Z) : bool :=
  (1 <=? y) && (y <=? 9999) && (1 <=? m) && (m <=? 12) &&
  (1 <=? d) && (d <=? days_in_month y m).

Definition valid_time (H M sec us : Z) : bool :=
  (0 <=? H) && (H <=? 23) && (0 <=? M) && (M <=? 59) &&
  (0 <=? sec) && (sec <=? 59) && (0 <=? us) && (us <=? 999999).

(** [datetime(year, month, day, hour, minute, second, microsecond)];
    [None] stands for the [ValueError] of an out-of-range field. *)
Definition datetime_new (y m d H M sec us : Z) : option datetime :=
  if valid_date y m d && valid_time H M sec us
  then Some (mk_datetime y m d H M sec us) else None.

Definition valid_datetime (dt : datetime) : bool :=
  valid_date (year dt) (month dt) (day dt) &&
  valid_time (hour dt) (minute dt) (second dt) (microsecond dt).

Definition days_before_year (y : Z) : Z :=
  let y' := y - 1 in y' * 365 + y' / 4 - y' / 100 + y' / 400.

Fixpoint days_before_month_aux (y : Z) (n : nat) : Z :=
  match n with
  | O => 0
  | S n' => days_before_month_aux y n' + days_in_month y (Z.of_nat n)
  end.

Definition days_before_month (y m : Z) : Z :=
  days_before_month_aux y (Z.to_nat (m - 1)).

(** [date(y, m, d).toordinal()] *)
Definition toordinal (y m d : Z) : Z :=
  days_before_year y + days_before_month y m + d.

(** [date(y, m, d).weekday()]: Monday is 0. *)
Definition weekday (y m d : Z) : Z := (toordinal y m d + 6) mod 7.

Definition or_else (o : option Z) (z : Z) : Z :=
  match o with Some v => v | None => z end.

(** [dt.replace(hour=..., minute=..., second=..., microsecond=...)] with
    each keyword optional.  Every call of the program replaces a field by
    the field of another datetime or by the literal 0, so the range checks
    that [replace] repeats cannot fail; it is the field update. *)
Definition replace (dt : datetime) (H M sec us : option Z) : datetime :=
  mk_datetime (year dt) (month dt) (day dt)
    (or_else H (hour dt)) (or_else M (minute dt))
    (or_else sec (second dt)) (or_else us (microsecond dt)).

End Datetime.
Import Datetime.

(** ** [time.strptime]

    After [_strptime.py] of CPython 2.x under the C locale: the format is
    turned into a regular expression compiled with [re.IGNORECASE], the
    data must match it from its first to its last character, and the
    captured groups are turned into the fields of a [struct_time]. *)

Module Strptime.

Record struct_time : Type := mk_struct_time {
  tm_year : Z; tm_mon : Z; tm_mday : Z;
  tm_hour : Z; tm_min : Z; tm_sec : Z;
  tm_wday : Z; tm_yday : Z; tm_isdst : Z }.

Definition dig : re := Cls is_digit.
Definition rng (lo hi : ascii) : re := Cls (in_range lo hi).
Definition chr (c : ascii) : re := Cls (lit_i c).

(** [3[0-1]|[1-2]\d|0[1-9]|[1-9]| [1-9]] *)
Definition re_d : re :=
  Alt (Seq (chr "3") (rng "0" "1"))
 (Alt (Seq (rng "1" "2") dig)
 (Alt (Seq (chr "0") (rng "1" "9"))
 (Alt (rng "1" "9")
      (Seq (chr " ") (rng "1" "9"))))).

(** [1[0-2]|0[1-9]|[1-9]], used by [%m] and [%I] *)
Definition re_m : re :=
  Alt (Seq (chr "1") (rng "0" "2"))
 (Alt (Seq (chr "0") (rng "1" "9"))
      (rng "1" "9")).

(** [2[0-3]|[0-1]\d|\d] *)
Definition re_H : re :=
  Alt (Seq (chr "2") (rng "0" "3"))
 (Alt (Seq (rng "0" "1") dig)
      dig).

(** [[0-5]\d|\d] *)
Definition re_M : re :=
  Alt (Seq (rng "0" "5") dig) dig.

(** [6[0-1]|[0-5]\d|\d] *)
Definition re_S : re :=
  Alt (Seq (chr "6") (rng "0" "1"))
 (Alt (Seq (rng "0" "5") dig)
      dig).

(** [\d\d] and [\d\d\d\d] *)
Definition re_y : re := Seq dig dig.
Definition re_Y : re := Seq dig (Seq dig (Seq dig dig)).

(** [am|pm]: the C locale's [am_pm], lower-cased by [LocaleTime]. *)
Definition re_p : re :=
  Alt (Seq (chr "a") (chr "m")) (Seq (chr "p") (chr "m")).

(** [TimeRE.__getitem__] for the directives that the formats of the program
    use; each is a group named after the directive.  [None] is the
    [ValueError] that [_strptime] raises for a bad directive. *)
Definition directive (c : ascii) : option re :=
  match c with
  | "d"%char => Some (Grp "d" re_d)
  | "m"%char => Some (Grp "m" re_m)
  | "Y"%char => Some (Grp "Y" re_Y)
  | "y"%char => Some (Grp "y" re_y)
  | "H"%char => Some (Grp "H" re_H)
  | "I"%char => Some (Grp "I" re_m)
  | "M"%char => Some (Grp "M" re_M)
  | "S"%char => Some (Grp "S" re_S)
  | "p"%char => Some (Grp "p" re_p)
  | _ => None
  end.

(** [TimeRE.pattern]: every run of whitespace of the format becomes [\s+],
    [%x] becomes the expression of directive [x], any other character
    stands for itself. *)
Fixpoint pattern (format : string) : option re :=
  match format with
  | EmptyString => Some Eps
  | String "%" EmptyString => None
  | String "%" (String x rest) =>
      match directive x, pattern rest with
      | Some r, Some r' => Some (Seq r r')
      | _, _ => None
      end
  | String c rest =>
      match pattern rest with
      | Some r' =>
          if is_space c then
            match rest with
            | String c' _ => if is_space c' then Some r'
                             else Some (Seq (Plus is_space) r')
            | EmptyString => Some (Seq (Plus is_space) r')
            end
          else Some (Seq (chr c) r')
      | None => None
      end
  end.

Fixpoint lstrip (s : string) : string :=
  match s with
  | String c s' => if is_space c then lstrip s' else s
  | EmptyString => EmptyString
  end.

Fixpoint rstrip (s : string) : string :=
  match s with
  | String c s' =>
      match rstrip s' with
      | EmptyString => if is_space c then EmptyString else String c EmptyString
      | r => String c r
      end
  | EmptyString => EmptyString
  end.

Fixpoint digits_val (s : string) (acc : Z) : Z :=
  match s with
  | String c s' => digits_val s' (acc * 10 + digit_val c)
  | EmptyString => acc
  end.

Definition unsigned_int (s : string) : option Z :=
  match s with
  | EmptyString => None
  | _ => if all is_digit s then Some (digits_val s 0) else None
  end.

(** [int(s)] for a string: surrounding whitespace is dropped, an optional
    sign and decimal digits are read; [None] is [ValueError]. *)
Definition py_int (s : string) : option Z :=
  match rstrip (lstrip s) with
  | String "-" s' => option_map Z.opp (unsigned_int s')
  | String "+" s' => unsigned_int s'
  | s' => unsigned_int s'
  end.

(** The local variables of [_strptime] that the directives of the program
    set. *)
Record fields : Type := mk_fields {
  f_year : Z; f_month : Z; f_day : Z;
  f_hour : Z; f_minute : Z; f_second : Z }.

(** [year = 1900; month = day = 1; hour = minute = second = 0] *)
Definition fields0 : fields := mk_fields 1900 1 1 0 0 0.

(** One turn of [for group_key in found_dict.iterkeys()]: the branch of
    the directive sets its variable from [int(found_dict[key])]; a key
    without a branch ([p]) is passed over. *)
Definition set_field (found : caps) (st : fields) (key value : string)
  : option fields :=
  let '(mk_fields y m d H M sec) := st in
  let int_then (f : Z -> fields) : option fields := option_map f (py_int value) in
  if String.eqb key "y" then
    int_then (fun v =>
      mk_fields (if v <=? 68 then v + 2000 else v + 1900) m d H M sec)
  else if String.eqb key "Y" then int_then (fun v => mk_fields v m d H M sec)
  else if String.eqb key "m" then int_then (fun v => mk_fields y v d H M sec)
  else if String.eqb key "d" then int_then (fun v => mk_fields y m v H M sec)
  else if String.eqb key "H" then int_then (fun v => mk_fields y m d v M sec)
  else if String.eqb key "I" then
    int_then (fun v =>
      let ampm := lower (match group "p" found with
                         | Some p => p | None => EmptyString end) in
      let h :=
        if String.eqb ampm "" || String.eqb ampm "am"
        then (if v =? 12 then 0 else v)
        else if String.eqb ampm "pm"
             then (if v =? 12 then v else v + 12)
             else v in
      mk_fields y m d h M sec)
  else if String.eqb key "M" then int_then (fun v => mk_fields y m d H v sec)
  else if String.eqb key "S" then int_then (fun v => mk_fields y m d H M v)
  else Some st.

Fixpoint set_fields (found : caps) (keys : caps) (st : fields)
  : option fields :=
  match keys with
  | [] => Some st
  | (key, value) :: keys' =>
      match set_field found st key value with
      | Some st' => set_fields found keys' st'
      | None => None
      end
  end.

(** [time.strptime(data_string, format)]; [None] is [ValueError]: the data
    does not match, unconverted data remains, or the day does not exist in
    the month. *)
Definition strptime (data_string format : string) : option struct_time :=
  match pattern format with
  | None => None
  | Some format_regex =>
      match re_match format_regex data_string with
      | None => None
      | Some (_, found, rest) =>
          match rest with
          | String _ _ => None
          | EmptyString =>
              match set_fields found found fields0 with
              | None => None
              | Some (mk_fields y m d H M sec) =>
                  if valid_date y m d && valid_date y 1 1 then
                    Some (mk_struct_time y m d H M sec
                            (weekday y m d)
                            (toordinal y m d - toordinal y 1 1 + 1)
                            (-1))
                  else None
              end
          end
      end
  end.

End Strptime.
Import Strptime.

(** ** [hugh/i18n.py] *)

Module I18n.

Definition DATE_FORMATS : list string :=
  ["%m/%d/%Y"; "%d/%m/%Y"; "%Y%m%d"; "%d. %m. %Y";
   "%m/%d/%y"; "%d/%m/%y"; "%d%m%y"; "%m%d%y"; "%y%m%d"].

Definition TIME_FORMATS : list string :=
  ["%H:%M"; "%H:%M:%S"; "%I:%M %p"; "%I:%M:%S %p"].

(** [_(text)]: the translation stub returns its argument. *)
Definition gettext (text : string) : string := text.

(** The format tried first. *)
Definition SYSTEM_FORMAT : string := "%Y-%m-%d %H:%M".

(** The error of [raise ValueError('invalid date format')]. *)
Definition InvalidFormat : exn := ValueError "invalid date format".

(** The helper [convert(format)] of [parse_datetime], with the string it
    closes over as first argument:
    [datetime( *strptime(string, format)[:7]).replace(microsecond=0)].
    The seventh element of the [struct_time] is [tm_wday], which lands in
    the microsecond argument of the constructor.  [None] is [ValueError],
    from [strptime] or from the constructor. *)
Definition convert (string format : string) : option datetime :=
  match strptime string format with
  | None => None
  | Some st =>
      match datetime_new (tm_year st) (tm_mon st) (tm_mday st)
                         (tm_hour st) (tm_min st) (tm_sec st) (tm_wday st) with
      | None => None
      | Some rv => Some (replace rv None None None (Some 0))
      end
  end.

(** The generator [combined()], as the list of what it yields. *)
Definition combined : list string :=
  flat_map (fun t_fmt =>
    flat_map (fun d_fmt => [t_fmt ++ " " ++ d_fmt; d_fmt ++ " " ++ t_fmt])
             DATE_FORMATS)
    TIME_FORMATS.

(** [for fmt in fmts: try: val = convert(fmt) except ValueError: continue]
    up to the first format that converts.  The first component lists the
    formats handed to [convert], in order. *)
Fixpoint try_formats (string : string) (fmts : list String.string)
  : list String.string * option datetime :=
  match fmts with
  | [] => ([], None)
  | fmt :: fmts' =>
      match convert string fmt with
      | Some val => ([fmt], Some val)
      | None =>
          let (tried, r) := try_formats string fmts' in (fmt :: tried, r)
      end
  end.

Section Clock.

(** What [datetime.utcnow()] returns during the call. *)
Variable utcnow : datetime.

(** [parse_datetime(string, rebase)], together with the formats it handed
    to [convert] on the way, in order. *)
Definition parse_datetime_log (string : option String.string) (rebase : bool)
  : list String.string * result datetime :=
  match string with
  | None => ([], Ok (replace utcnow None None None (Some 0)))
  | Some string =>
      if String.eqb (lower string) "now"
         || String.eqb (lower string) (gettext "now")
      then ([], Ok (replace utcnow None None None (Some 0)))
      else
        match convert string SYSTEM_FORMAT with
        | Some rv => ([SYSTEM_FORMAT], Ok rv)
        | None =>
            match try_formats string TIME_FORMATS with
            | (tried, Some val) =>
                (SYSTEM_FORMAT :: tried,
                 Ok (replace utcnow (Some (hour val)) (Some (minute val))
                             (Some (second val)) (Some 0)))
            | (tried, None) =>
                match try_formats string combined with
                | (tried', Some rv) =>
                    (SYSTEM_FORMAT :: tried ++ tried', Ok rv)
                | (tried', None) =>
                    (SYSTEM_FORMAT :: tried ++ tried', Raise InvalidFormat)
                end
            end
        end
  end.

Definition parse_datetime (string : option String.string) (rebase : bool)
  : result datetime :=
  snd (parse_datetime_log string rebase).

End Clock.

(** [%d] of the [%] operator on an integer. *)
Definition fmt_d (z : Z) : string := NilZero.string_of_int (Z.to_int z).

Fixpoint zeros (n : nat) : string :=
  match n with
  | O => EmptyString
  | S n' => String "0" (zeros n')
  end.

(** [%02d] of the [%] operator: the sign, then the digits padded with
    zeros up to two characters in all. *)
Definition fmt_02d (z : Z) : string :=
  let sign := if z <? 0 then "-" else "" in
  let digits := NilZero.string_of_uint (N.to_uint (Z.to_N (Z.abs z))) in
  sign ++ zeros (2 - String.length sign - String.length digits) ++ digits.

(** [format_system_datetime(datetime, rebase)], called on a datetime
    object: [u'%d-%02d-%02d %02d:%02d' % (year, month, day, hour, minute)]. *)
Definition format_system_datetime (dt : datetime) (rebase : bool) : string :=
  fmt_d (year dt) ++ "-" ++ fmt_02d (month dt) ++ "-" ++ fmt_02d (day dt)
  ++ " " ++ fmt_02d (hour dt) ++ ":" ++ fmt_02d (minute dt).

End I18n.
Import I18n.

(** ** [hugh/localized/us/__init__.py]: [USPhoneNumberField] *)

Module US.

(** [_phone_digits_strip_re = re.compile(r'[-\.()\s]')] *)
Definition phone_strip_class (c : ascii) : bool :=
  Ascii.eqb c "-" || Ascii.eqb c "." || Ascii.eqb c "("
  || Ascii.eqb c ")" || is_space c.

(** [_phone_digits_strip_re.sub('', value)] *)
Fixpoint phone_digits_strip (value : string) : string :=
  match value with
  | EmptyString => EmptyString
  | String c rest =>
      if phone_strip_class c then phone_digits_strip rest
      else String c (phone_digits_strip rest)
  end.

Definition d3 : re := Seq (Cls is_digit) (Seq (Cls is_digit) (Cls is_digit)).
Definition d4 : re := Seq (Cls is_digit) d3.

(** [_phone_digits_re = re.compile(r'^1?(\d{3})(\d{3})(\d{4})$')], without
    the final [$], which [re_match_dollar] supplies.  The groups are
    numbered, not named; the names here are their numbers. *)
Definition phone_digits_re : re :=
  Seq (Alt (Cls (lit "1")) Eps)
      (Seq (Grp "1" d3) (Seq (Grp "2" d3) (Grp "3" d4))).

(** [sep.join(items)] *)
Fixpoint join (sep : string) (items : list string) : string :=
  match items with
  | [] => EmptyString
  | [x] => x
  | x :: rest => x ++ sep ++ join sep rest
  end.

(** [c in chars] for a one-character string [c]. *)
Fixpoint char_in (c : ascii) (chars : string) : bool :=
  match chars with
  | EmptyString => false
  | String x rest => Ascii.eqb c x || char_in c rest
  end.

Definition invalid_phone : string :=
  "Please enter a phone number with area code in the format 555-867-5309".

Definition bad_area_code : string :=
  String.concat "" ["Phone area codes cannot begin with a ";
                    String "034" "1"; String "034" " or ";
                    String "034" "0"; String "034" ""].

Section Field.

(** [forms.TextField.convert(self, value)] lives in [hugh/forms.py], which
    is not part of the sources at hand: it is a parameter.  It returns the
    text of the field or raises. *)
Variable TextField_convert : string -> result string.

(** [self.required] *)
Variable required : bool.

(** [USPhoneNumberField.convert(self, value)] *)
Definition USPhoneNumberField_convert (value : string) : result string :=
  match TextField_convert value with
  | Raise e => Raise e
  | Ok value =>
      if String.eqb value "" && negb required then Ok value
      else
        let value := phone_digits_strip value in
        match re_match_dollar phone_digits_re value with
        | None => Raise (ValidationError invalid_phone)
        | Some (_, groups) =>
            match groups with
            | (_, String c _) :: _ =>
                if char_in c "01" then Raise (ValidationError bad_area_code)
                else Ok (join "-" (map snd groups))
            | _ => Raise (ValidationError invalid_phone)
            end
        end
  end.

End Field.

End US.
Import US.

(** ** Notions used to state and prove the properties *)

Module Analysis.

(** A time used by the examples as the current time. *)
Definition sample_now : datetime := mk_datetime 2024 5 6 7 8 9 123456.

(** Number of characters of [s] that satisfy [q]. *)
Fixpoint count (q : ascii -> bool) (s : string) : nat :=
  match s with
  | EmptyString => O
  | String c s' => ((if q c then 1 else 0) + count q s')%nat
  end.

(** The 256 characters. *)
Definition all_ascii : list ascii := map ascii_of_nat (seq 0 256).

(** Every character of class [p] satisfies [q]. *)
Definition cls_within (p q : ascii -> bool) : bool :=
  forallb (fun c => implb (p c) (q c)) all_ascii.

(** [re_count q r = Some n]: every text that [r] matches has exactly [n]
    characters satisfying [q]. *)
Fixpoint re_count (q : ascii -> bool) (r : re) : option nat :=
  match r with
  | Eps => Some O
  | Cls p =>
      if cls_within p q then Some 1%nat
      else if cls_within p (fun c => negb (q c)) then Some O
      else None
  | Seq r1 r2 =>
      match re_count q r1, re_count q r2 with
      | Some a, Some b => Some (a + b)%nat
      | _, _ => None
      end
  | Alt r1 r2 =>
      match re_count q r1, re_count q r2 with
      | Some a, Some b => if Nat.eqb a b then Some a else None
      | _, _ => None
      end
  | Plus p => if cls_within p (fun c => negb (q c)) then Some O else None
  | Grp _ r' => re_count q r'
  end.

(** The same for a format of [strptime]. *)
Definition format_count (q : ascii -> bool) (format : string) : option nat :=
  match pattern format with
  | Some r => re_count q r
  | None => None
  end.

Definition is_colon (c : ascii) : bool := Ascii.eqb c ":".
Definition is_dash (c : ascii) : bool := Ascii.eqb c "-".
Definition is_m (c : ascii) : bool := Ascii.eqb (lower_ascii c) "m".

(** Every format [parse_datetime] can hand to [convert], in the order of
    the attempts. *)
Definition candidate_formats : list string :=
  SYSTEM_FORMAT :: (TIME_FORMATS ++ combined)%list.

(** The test of the shortcut: [string.lower() in ('now', _('now'))]. *)
Definition is_now (s : string) : bool :=
  String.eqb (lower s) "now" || String.eqb (lower s) (gettext "now").

(** [utcnow().replace(microsecond=0)] *)
Definition truncated (now : datetime) : datetime :=
  mk_datetime (year now) (month now) (day now)
              (hour now) (minute now) (second now) 0.

(** [convert] fails on every format of the list. *)
Definition none_converts (s : string) (fmts : list string) : bool :=
  forallb (fun f => match convert s f with None => true | Some _ => false end)
          fmts.

(** The character of a decimal digit. *)
Definition digit_char (n : Z) : ascii := ascii_of_N (Z.to_N (48 + n)).

(** [n] written with exactly two, and exactly four, decimal digits. *)
Definition two_digits (n : Z) : string :=
  String (digit_char (n / 10)) (String (digit_char (n mod 10)) "").

Definition four_digits (n : Z) : string :=
  String (digit_char (n / 1000)) (String (digit_char (n / 100 mod 10))
    (String (digit_char (n / 10 mod 10)) (String (digit_char (n mod 10)) ""))).

(** [check] holds on [lo], [lo + 1], ..., [lo + len - 1]. *)
Definition holds_on (check : Z -> bool) (lo : Z) (len : nat) : bool :=
  forallb (fun k => check (lo + Z.of_nat k)) (seq 0 len).

(** A string laid out as YYYY-MM-DD HH:MM: digits at the places of the
    letters, the separators as shown, sixteen characters. *)
Definition is_system_string (s : string) : bool :=
  match s with
  | String y1 (String y2 (String y3 (String y4 (String c1
    (String m1 (String m2 (String c2 (String d1 (String d2 (String c3
    (String h1 (String h2 (String c4 (String n1 (String n2 "")))))))))))))))
    => Ascii.eqb c1 "-" && Ascii.eqb c2 "-" && Ascii.eqb c3 " "
       && Ascii.eqb c4 ":"
       && all is_digit
            (String y1 (String y2 (String y3 (String y4 (String m1 (String m2
            (String d1 (String d2 (String h1 (String h2 (String n1
            (String n2 ""))))))))))))
  | _ => false
  end.

(** One or two digits. *)
Definition digits12 (x : string) : Prop :=
  (exists a b, x = String a (String b "")
               /\ is_digit a = true /\ is_digit b = true)
  \/ (exists a, x = String a "" /\ is_digit a = true).

(** The ten digit characters. *)
Definition digit_chars : list ascii :=
  ["0"; "1"; "2"; "3"; "4"; "5"; "6"; "7"; "8"; "9"]%char.

End Analysis.
Import Analysis.

(** ** [hugh/localized/us/__init__.py]: the zip code validator and
    [USStateField] *)

Module USValidators.

Definition d5 : re := Seq (Cls is_digit) d4.

(** [_zip_code_re = re.compile(r'^\d{5}(?:-\d{4})?$')], without the final
    [$], which [re_match_dollar] supplies. *)
Definition zip_code_re : re :=
  Seq d5 (Alt (Seq (Cls (lit "-")) d4) Eps).

Definition zip_code_message : string :=
  "The zip code must be in the format ##### or #####-####".

Section Validator.

(** The form the validator is called with; it is not looked at. *)
Context {Form : Type}.

(** [is_valid_us_zip_code(message)(form, value)]: the validator returns
    nothing or raises. *)
Definition is_valid_us_zip_code (message : option string) (form : Form)
           (value : string) : result unit :=
  let message :=
    match message with None => zip_code_message | Some m => m end in
  match re_match_dollar zip_code_re value with
  | None => Raise (ValidationError message)
  | Some _ => Ok tt
  end.

End Validator.

(** Text whose characters are all below 128. *)
Definition is_ascii_char (c : ascii) : bool := (code c <? 128)%N.

Definition is_ascii (s : string) : bool := all is_ascii_char s.

(** Upper-casing of the letters [a-z], every other character kept: what
    the [upper] method of a Python string does on text whose characters
    are all below 128. *)
Definition ascii_upper_char (c : ascii) : ascii :=
  if in_range "a" "z" c then ascii_of_N (code c - 32) else c.

Fixpoint ascii_upper (s : string) : string :=
  match s with
  | EmptyString => EmptyString
  | String c s' => String (ascii_upper_char c) (ascii_upper s')
  end.

Definition invalid_state : string :=
  "Enter a valid 2-letter U.S. state or territory code.".

Section StateField.

(** [forms.TextField.convert(self, value)], from [hugh/forms.py]. *)
Variable TextField_convert : string -> result string.

(** [states.VALID_STATE_CODES], from [hugh/localized/us/states.py], which
    is not part of the sources at hand; only membership is asked of it. *)
Variable VALID_STATE_CODES : list string.

(** [value.upper()]: the method of the text that [TextField.convert]
    returns, a unicode string.  It belongs to Python, and what it does
    outside ASCII is not fixed here: it is a parameter. *)
Variable upper : string -> string.

(** [USStateField.convert(self, value)] *)
Definition USStateField_convert (value : string) : result string :=
  match TextField_convert value with
  | Raise e => Raise e
  | Ok value =>
      let value := upper value in
      if negb (existsb (String.eqb value) VALID_STATE_CODES)
      then Raise (ValidationError invalid_state)
      else Ok value
  end.

End StateField.

End USValidators.
Import USValidators.

(** ** Further notions used by the properties *)

Module Analysis2.

(** Lower-casing every captured group. *)
Definition lower_caps (c : caps) : caps :=
  map (fun g => (fst g, lower (snd g))) c.

(** A pattern that cannot tell a character from its lower-case form. *)
Fixpoint case_blind (r : re) : bool :=
  match r with
  | Eps => true
  | Cls p | Plus p => cls_within (fun _ => true)
                        (fun c => Bool.eqb (p (lower_ascii c)) (p c))
  | Seq r1 r2 | Alt r1 r2 => case_blind r1 && case_blind r2
  | Grp _ r' => case_blind r'
  end.

(** [l1] is an initial segment of [l2]. *)
Definition is_prefix (l1 l2 : list string) : Prop :=
  exists rest, l2 = (l1 ++ rest)%list.

(** A string of exactly [n] digits. *)
Definition digits_n (n : nat) (s : string) : bool :=
  Nat.eqb (String.length s) n && all is_digit s.

(** The phone number with its separators removed: ten digits, or a "1" and
    ten digits; the ten digits are returned. *)
Definition phone_ten_digits (stripped : string) : option string :=
  match stripped with
  | String c rest =>
      if Ascii.eqb c "1" && digits_n 10 rest then Some rest
      else if digits_n 10 stripped then Some stripped
      else None
  | EmptyString => None
  end.

(** ddd-ddd-dddd from ten characters. *)
Definition dashed (ten : string) : string :=
  substring 0 3 ten ++ "-" ++ substring 3 3 ten ++ "-" ++ substring 6 4 ten.

(** Does the string start with one of the characters? *)
Definition starts_with_any (chars : string) (s : string) : bool :=
  match s with
  | String c _ => char_in c chars
  | EmptyString => false
  end.

(** The zip codes of the docstring: five digits, or five digits, a dash
    and four digits. *)
Definition zip_shape (s : string) : bool :=
  match s with
  | String a (String b (String c (String d (String e rest)))) =>
      all is_digit (String a (String b (String c (String d (String e "")))))
      && match rest with
         | EmptyString => true
         | String dash four => Ascii.eqb dash "-" && digits_n 4 four
         end
  | _ => false
  end.

(** The single character [\n]. *)
Definition newline : string := String "010" "".

(** Is the format one of the time-only formats? *)
Definition is_time_only (f : string) : bool :=
  existsb (String.eqb f) TIME_FORMATS.

(** [utcnow().replace(hour=val.hour, minute=val.minute,
    second=val.second, microsecond=0)] *)
Definition on_today (now val : datetime) : datetime :=
  mk_datetime (year now) (month now) (day now)
              (hour val) (minute val) (second val) 0.

Definition is_slash (c : ascii) : bool := Ascii.eqb c "/".

(** An hour of the twelve-hour clock written with or without a leading
    zero. *)
Definition hour_text (padded : bool) (h : Z) : string :=
  if padded then two_digits h else fmt_d h.

(** A date written with slashes and a time: nn/nn/yyyy hh:mm, every number
    padded with zeros. *)
Definition slash_date_time (a b y H M : Z) : string :=
  two_digits a ++ "/" ++ two_digits b ++ "/" ++ four_digits y
  ++ " " ++ two_digits H ++ ":" ++ two_digits M.

(** A time format, a space, a date format. *)
Definition time_then_date (f : string) : Prop :=
  exists t d, In t TIME_FORMATS /\ In d DATE_FORMATS /\ f = t ++ " " ++ d.

(** A date format, a space, a time format. *)
Definition date_then_time (f : string) : Prop :=
  exists t d, In t TIME_FORMATS /\ In d DATE_FORMATS /\ f = d ++ " " ++ t.

End Analysis2.
Import Analysis2.

(** * Properties *)

(** ** The format loop *)

Lemma convert_microsecond (s fmt : string) (dt : datetime) :
  convert s fmt = Some dt -> microsecond dt = 0.
Proof.
  unfold convert.
  destruct (strptime s fmt) as [st|]; [|discriminate].
  destruct (datetime_new _ _ _ _ _ _ _) as [rv|]; [|discriminate].
  intros [= <-]. reflexivity.
Qed.

(** A loop that stops with a value stopped at the first format that
    converts. *)
Lemma try_formats_some (s : string) (fmts tried : list string) (v : datetime) :
  try_formats s fmts = (tried, Some v) ->
  exists pre fmt post,
    fmts = (pre ++ fmt :: post)%list /\ tried = (pre ++ [fmt])%list /\
    (forall f, In f pre -> convert s f = None) /\
    convert s fmt = Some v.
Proof.
  revert tried. induction fmts as [|f fmts IH]; simpl; intros tried H.
  - discriminate.
  - destruct (convert s f) as [val|] eqn:E.
    + injection H as <- <-. exists [], f, fmts. simpl. intuition.
    + destruct (try_formats s fmts) as [tr r] eqn:T.
      injection H as <- ->.
      destruct (IH tr eq_refl) as (pre & fmt & post & -> & -> & Hpre & Hfmt).
      exists (f :: pre), fmt, post. simpl. repeat split; auto.
      intros g [<-|Hg]; auto.
Qed.

(** A loop that runs out of formats tried them all, in order, and none
    converted. *)
Lemma try_formats_none (s : string) (fmts tried : list string) :
  try_formats s fmts = (tried, None) <->
  tried = fmts /\ forall f, In f fmts -> convert s f = None.
Proof.
  revert tried. induction fmts as [|f fmts IH]; simpl; intros tried.
  - split.
    + intros [= <-]. split; [reflexivity | intros f []].
    + intros [-> _]. reflexivity.
  - destruct (convert s f) as [val|] eqn:E.
    + split; [discriminate|]. intros [_ H].
      rewrite (H f (or_introl eq_refl)) in E. discriminate.
    + destruct (try_formats s fmts) as [tr r] eqn:T. split.
      * intros [= <- ->]. destruct (proj1 (IH tr) eq_refl) as [-> Hall].
        split; [reflexivity|]. intros g [<-|Hg]; auto.
      * intros [-> Hall].
        assert (X : (tr, r) = (fmts, None)).
        { apply IH. split; [reflexivity|]. intros g Hg. apply Hall. now right. }
        injection X as -> ->. reflexivity.
Qed.

Lemma try_formats_first (s : string) (pre post : list string) (fmt : string)
      (v : datetime) :
  (forall f, In f pre -> convert s f = None) ->
  convert s fmt = Some v ->
  try_formats s (pre ++ fmt :: post)%list = ((pre ++ [fmt])%list, Some v).
Proof.
  intros Hpre Hfmt. induction pre as [|f pre IH]; simpl.
  - now rewrite Hfmt.
  - rewrite (Hpre f (or_introl eq_refl)), IH; [reflexivity|].
    intros g Hg. apply Hpre. now right.
Qed.

(** ** Strings *)

Lemma append_nil_r (s : string) : s ++ "" = s.
Proof. induction s; simpl; congruence. Qed.

Lemma append_assoc (a b c : string) : (a ++ b) ++ c = a ++ (b ++ c).
Proof. induction a; simpl; congruence. Qed.

Lemma all_append (p : ascii -> bool) (a b : string) :
  all p (a ++ b) = all p a && all p b.
Proof.
  induction a as [|c a IH]; simpl; [reflexivity|].
  rewrite IH. now rewrite andb_assoc.
Qed.

(** ** The matcher is sound for the declarative reading of patterns *)

Lemma star_sound {A : Type} (p : ascii -> bool) (s : string)
      (k : string -> string -> option A) (x : A) :
  star p s k = Some x ->
  exists m rest, s = m ++ rest /\ all p m = true /\ k m rest = Some x.
Proof.
  revert k. induction s as [|c s IH]; simpl; intros k H.
  - exists "", "". auto.
  - destruct (p c) eqn:Pc.
    + destruct (star p s (fun m rest => k (String c m) rest)) as [y|] eqn:E.
      * injection H as ->.
        destruct (IH _ E) as (m & rest & -> & Hm & Hk).
        exists (String c m), rest. simpl. rewrite Pc, Hm. auto.
      * exists "", (String c s). auto.
    + exists "", (String c s). auto.
Qed.

Lemma rmatch_sound {A : Type} (r : re) :
  forall (s : string) (k : string -> caps -> string -> option A) (x : A),
    rmatch r s k = Some x ->
    exists m c rest, s = m ++ rest /\ matches r m c /\ k m c rest = Some x.
Proof.
  induction r as [|p|r1 IH1 r2 IH2|r1 IH1 r2 IH2|p|n r IH]; simpl; intros s k x H.
  - exists "", [], s. repeat split; auto. constructor.
  - destruct s as [|c s]; [discriminate|].
    destruct (p c) eqn:Pc; [|discriminate].
    exists (String c ""), [], s. repeat split; auto. now constructor.
  - destruct (IH1 _ _ _ H) as (m1 & c1 & s1 & -> & M1 & H1).
    destruct (IH2 _ _ _ H1) as (m2 & c2 & s2 & -> & M2 & H2).
    exists (m1 ++ m2), (c1 ++ c2)%list, s2.
    rewrite append_assoc. repeat split; auto. now constructor.
  - destruct (rmatch r1 s k) as [y|] eqn:E.
    + injection H as ->.
      destruct (IH1 _ _ _ E) as (m & c & rest & -> & M & Hk).
      exists m, c, rest. repeat split; auto. now apply MAltL.
    + destruct (IH2 _ _ _ H) as (m & c & rest & -> & M & Hk).
      exists m, c, rest. repeat split; auto. now apply MAltR.
  - destruct s as [|c s]; [discriminate|].
    destruct (p c) eqn:Pc; [|discriminate].
    destruct (star_sound _ _ _ _ H) as (m & rest & -> & Hm & Hk).
    exists (String c m), [], rest. repeat split; auto. now constructor.
  - destruct (IH _ _ _ H) as (m & c & rest & -> & M & Hk).
    exists m, ((n, m) :: c), rest. repeat split; auto. now constructor.
Qed.

Lemma re_match_sound (r : re) (s m rest : string) (c : caps) :
  re_match r s = Some (m, c, rest) -> s = m ++ rest /\ matches r m c.
Proof.
  intros H. apply rmatch_sound in H.
  destruct H as (m' & c' & rest' & -> & M & [= -> -> ->]). auto.
Qed.

Lemma re_match_dollar_sound (r : re) (s m : string) (c : caps) :
  re_match_dollar r s = Some (m, c) ->
  exists rest, s = m ++ rest /\ at_end rest = true /\ matches r m c.
Proof.
  intros H. apply rmatch_sound in H.
  destruct H as (m' & c' & rest' & -> & M & Hk).
  destruct (at_end rest') eqn:E; [|discriminate].
  injection Hk as -> ->. eauto.
Qed.

(** ** Counting characters in what a pattern matches *)

Lemma all_ascii_complete (c : ascii) : In c all_ascii.
Proof.
  unfold all_ascii. rewrite <- (ascii_nat_embedding c).
  apply in_map, in_seq. pose proof (nat_ascii_bounded c). lia.
Qed.

Lemma cls_within_spec (p q : ascii -> bool) (c : ascii) :
  cls_within p q = true -> p c = true -> q c = true.
Proof.
  unfold cls_within. rewrite forallb_forall. intros H Hp.
  specialize (H c (all_ascii_complete c)). now rewrite Hp in H.
Qed.

Lemma count_append (q : ascii -> bool) (a b : string) :
  count q (a ++ b) = (count q a + count q b)%nat.
Proof. induction a as [|c a IH]; simpl; [reflexivity|]. rewrite IH. lia. Qed.

Lemma count_all_not (p q : ascii -> bool) (m : string) :
  cls_within p (fun c => negb (q c)) = true -> all p m = true -> count q m = O.
Proof.
  intros W. induction m as [|c m IH]; simpl; [reflexivity|].
  intros H. apply andb_prop in H as [Hc Hm].
  pose proof (cls_within_spec _ _ c W Hc) as N. simpl in N.
  apply negb_true_iff in N. rewrite N, IH; auto.
Qed.

Lemma re_count_sound (q : ascii -> bool) (r : re) (m : string) (c : caps) :
  matches r m c -> forall n, re_count q r = Some n -> count q m = n.
Proof.
  induction 1 as [|p ch Hp|r1 r2 m1 m2 c1 c2 _ IH1 _ IH2|r1 r2 m c _ IH
                 |r1 r2 m c _ IH|p ch m Hp Hm|g r m c _ IH]; simpl; intros n Hn.
  - now injection Hn.
  - destruct (cls_within p q) eqn:W.
    + injection Hn as <-. now rewrite (cls_within_spec _ _ ch W Hp).
    + destruct (cls_within p (fun c => negb (q c))) eqn:W'; [|discriminate].
      injection Hn as <-. pose proof (cls_within_spec _ _ ch W' Hp) as N.
      simpl in N. apply negb_true_iff in N. now rewrite N.
  - destruct (re_count q r1) as [a|]; [|discriminate].
    destruct (re_count q r2) as [b|]; [|discriminate].
    injection Hn as <-. rewrite count_append. now rewrite (IH1 a), (IH2 b).
  - destruct (re_count q r1) as [a|]; [|discriminate].
    destruct (re_count q r2) as [b|]; [|discriminate].
    destruct (Nat.eqb a b); [|discriminate]. injection Hn as <-. now apply IH.
  - destruct (re_count q r1) as [a|]; [|discriminate].
    destruct (re_count q r2) as [b|]; [|discriminate].
    destruct (Nat.eqb a b) eqn:E; [|discriminate]. injection Hn as <-.
    apply Nat.eqb_eq in E. subst. now apply IH.
  - destruct (cls_within p (fun c => negb (q c))) eqn:W; [|discriminate].
    injection Hn as <-.
    pose proof (cls_within_spec _ _ ch W Hp) as N. simpl in N.
    apply negb_true_iff in N. rewrite N. simpl. eapply count_all_not; eauto.
  - now apply IH.
Qed.

(** ** What a successful [convert] says about the string *)

(** [convert] succeeds only when the first match of the format's pattern is
    the whole string. *)
Lemma convert_full_match (s fmt : string) (dt : datetime) :
  convert s fmt = Some dt ->
  exists r c, pattern fmt = Some r /\ re_match r s = Some (s, c, "").
Proof.
  unfold convert, strptime.
  destruct (pattern fmt) as [r|]; [|discriminate].
  destruct (re_match r s) as [[[m c] rest]|] eqn:E; [|discriminate].
  destruct rest; [|discriminate]. intros _.
  destruct (re_match_sound _ _ _ _ _ E) as [Hs _].
  rewrite append_nil_r in Hs. subst m. eauto.
Qed.

(** A first match that leaves characters over is rejected. *)
Lemma convert_leftover (s fmt m rest : string) (r : re) (c : caps) :
  pattern fmt = Some r -> re_match r s = Some (m, c, rest) -> rest <> "" ->
  convert s fmt = None.
Proof.
  intros P M N. unfold convert, strptime. rewrite P, M.
  destruct rest; [contradiction|reflexivity].
Qed.

Lemma convert_count (q : ascii -> bool) (s fmt : string) (dt : datetime) (n : nat) :
  convert s fmt = Some dt -> format_count q fmt = Some n -> count q s = n.
Proof.
  intros H. destruct (convert_full_match _ _ _ H) as (r & c & P & M).
  unfold format_count. rewrite P.
  apply re_match_sound in M as [_ M]. now apply re_count_sound with (r := r) (c := c).
Qed.

Lemma none_converts_spec (s : string) (fmts : list string) :
  none_converts s fmts = true <-> forall f, In f fmts -> convert s f = None.
Proof.
  unfold none_converts. rewrite forallb_forall. split; intros H f Hf.
  - specialize (H f Hf). now destruct (convert s f).
  - now rewrite (H f Hf).
Qed.

(** ** The shortcut for the current time *)

Lemma is_now_spec (s : string) : is_now s = true <-> lower s = "now".
Proof.
  unfold is_now, gettext. rewrite orb_diag. apply String.eqb_eq.
Qed.

(** C6. When the string is absent, or is "now" in any mix of upper and
    lower case (the translation stub maps "now" to itself),
    [parse_datetime] returns the current UTC time with the microseconds
    set to 0, and no format has been handed to [convert]. *)
Theorem parse_datetime_now_shortcut (now : datetime) (s : option string)
        (rebase : bool) :
  s = None \/ (exists str, s = Some str /\ lower str = "now") ->
  parse_datetime_log now s rebase = ([], Ok (truncated now)) /\
  parse_datetime now s rebase = Ok (truncated now).
Proof.
  intros [-> | (str & -> & H)]; unfold parse_datetime; simpl.
  - split; reflexivity.
  - apply is_now_spec in H. unfold is_now in H. rewrite H. split; reflexivity.
Qed.

Lemma parse_datetime_now_shortcut_witness :
  parse_datetime_log sample_now (Some "NoW") true
    = ([], Ok (mk_datetime 2024 5 6 7 8 9 0)) /\
  parse_datetime sample_now (Some "NoW") true
    = Ok (mk_datetime 2024 5 6 7 8 9 0).
Proof.
  apply (parse_datetime_now_shortcut sample_now (Some "NoW") true).
  right. exists "NoW". split; reflexivity.
Defined.

(** ** The rebase flag *)

(** C8. The outcome of [parse_datetime], value or error, and the formats
    it tries do not depend on the rebase flag. *)
Theorem parse_datetime_rebase_independent (now : datetime) (s : option string)
        (rebase rebase' : bool) :
  parse_datetime now s rebase = parse_datetime now s rebase' /\
  parse_datetime_log now s rebase = parse_datetime_log now s rebase'.
Proof. split; reflexivity. Qed.

(** ** Seconds precision *)

(** C9. Whatever branch produced it, a datetime returned by
    [parse_datetime] has microsecond 0. *)
Theorem parse_datetime_microsecond_zero (now : datetime) (s : option string)
        (rebase : bool) (dt : datetime) :
  parse_datetime now s rebase = Ok dt -> microsecond dt = 0.
Proof.
  unfold parse_datetime, parse_datetime_log.
  destruct s as [s|]; [|intros [= <-]; reflexivity].
  destruct (_ || _); [intros [= <-]; reflexivity|].
  destruct (convert s SYSTEM_FORMAT) as [rv|] eqn:E.
  { intros [= <-]. eapply convert_microsecond; eauto. }
  destruct (try_formats s TIME_FORMATS) as [tr [val|]].
  { intros [= <-]. reflexivity. }
  destruct (try_formats s combined) as [tr' [rv|]] eqn:T; [|discriminate].
  intros [= <-]. apply try_formats_some in T.
  destruct T as (pre & fmt & post & _ & _ & _ & H).
  eapply convert_microsecond; eauto.
Qed.

Lemma parse_datetime_microsecond_zero_witness :
  microsecond (mk_datetime 2020 3 4 14 30 0 0) = 0.
Proof.
  apply (parse_datetime_microsecond_zero sample_now
           (Some "2020-03-04 14:30") true).
  reflexivity.
Defined.

(** ** Examples of the specification *)

(** [parse("2020-03-04 14:30")] *)
Example parse_system_format (now : datetime) (rebase : bool) :
  parse_datetime now (Some "2020-03-04 14:30") rebase
  = Ok (mk_datetime 2020 3 4 14 30 0 0).
Proof. reflexivity. Qed.

(** C5. "03/04/2020 14:30" and "14:30 03/04/2020" both parse, to the same
    datetime: 4 March 2020, 14:30:00. *)
Theorem parse_date_time_either_order (now : datetime) (rebase rebase' : bool) :
  parse_datetime now (Some "03/04/2020 14:30") rebase
    = Ok (mk_datetime 2020 3 4 14 30 0 0) /\
  parse_datetime now (Some "14:30 03/04/2020") rebase'
    = Ok (mk_datetime 2020 3 4 14 30 0 0).
Proof. split; vm_compute; reflexivity. Qed.

(** ** Time-only strings *)

Lemma is_colon_lower (c : ascii) : is_colon c = true -> lower_ascii c = ":"%char.
Proof.
  unfold is_colon. intros H. apply Ascii.eqb_eq in H. now subst.
Qed.

Lemma now_has_no_colon (s : string) : lower s = "now" -> count is_colon s = O.
Proof.
  destruct s as [|a [|b [|c [|d s]]]]; simpl; try discriminate.
  intros [= Ha Hb Hc].
  destruct (is_colon a) eqn:A; [apply is_colon_lower in A; congruence|].
  destruct (is_colon b) eqn:B; [apply is_colon_lower in B; congruence|].
  destruct (is_colon c) eqn:C; [apply is_colon_lower in C; congruence|].
  reflexivity.
Qed.

(** Two formats whose patterns fix different numbers of some character
    cannot both convert the same string. *)
Lemma convert_count_clash (q : ascii -> bool) (s f g : string)
      (v w : datetime) (n k : nat) :
  format_count q f = Some n -> format_count q g = Some k -> n <> k ->
  convert s f = Some v -> convert s g = Some w -> False.
Proof.
  intros Hf Hg N Cf Cg.
  apply N. rewrite <- (convert_count q _ _ _ _ Cf Hf).
  apply (convert_count q _ _ _ _ Cg Hg).
Qed.

Ltac count_clash q :=
  match goal with
  | Hf : convert ?s ?f = Some _, Hg : convert ?s ?g = Some _ |- _ =>
      exfalso;
      refine (convert_count_clash q s f g _ _ _ _ _ _ _ Hf Hg);
      [vm_compute; reflexivity | vm_compute; reflexivity | discriminate]
  end.

Ltac clash := first [count_clash is_colon | count_clash is_m | count_clash is_dash].

(** A string that a time-only format converts is not converted by the
    system format. *)
Lemma time_only_not_system (s fmt : string) (val : datetime) :
  In fmt TIME_FORMATS -> convert s fmt = Some val ->
  convert s SYSTEM_FORMAT = None.
Proof.
  intros Hin H. destruct (convert s SYSTEM_FORMAT) as [rv|] eqn:E; [|reflexivity].
  unfold SYSTEM_FORMAT in E.
  simpl in Hin. decompose [or] Hin; subst; try contradiction; clash.
Qed.

Lemma time_only_not_now (s fmt : string) (val : datetime) :
  In fmt TIME_FORMATS -> convert s fmt = Some val -> is_now s = false.
Proof.
  intros Hin H. destruct (is_now s) eqn:E; [|reflexivity].
  apply is_now_spec, now_has_no_colon in E.
  simpl in Hin. decompose [or] Hin; subst; try contradiction;
    match goal with
    | C : convert s ?f = Some _ |- _ =>
        assert (X : exists n, format_count is_colon f = Some (S n))
          by (eexists; vm_compute; reflexivity);
        destruct X as [n X];
        rewrite (convert_count is_colon _ _ _ _ C X) in E; discriminate
    end.
Qed.

(** At most one time-only format converts a given string. *)
Lemma time_only_unique (s f g : string) (v w : datetime) :
  In f TIME_FORMATS -> In g TIME_FORMATS ->
  convert s f = Some v -> convert s g = Some w -> f = g.
Proof.
  intros Hf Hg Cf Cg. simpl in Hf, Hg.
  decompose [or] Hf; decompose [or] Hg; subst;
    try contradiction; try reflexivity; clash.
Qed.

Lemma try_formats_unique (s fmt : string) (val : datetime) (fmts : list string) :
  (forall g w, In g fmts -> convert s g = Some w -> g = fmt) ->
  In fmt fmts -> convert s fmt = Some val ->
  exists tried, try_formats s fmts = (tried, Some val).
Proof.
  induction fmts as [|f fmts IH]; simpl; intros U Hin H; [contradiction|].
  destruct (convert s f) as [w|] eqn:E.
  - rewrite (U f w (or_introl eq_refl) E) in E. rewrite H in E.
    injection E as <-. eauto.
  - destruct Hin as [->|Hin]; [congruence|].
    destruct IH as [tried ->]; eauto.
Qed.

(** C4. [parse_datetime("14:30")] is today's UTC date at 14:30:00; and
    whenever a time-only format converts the string, the result is
    today's UTC date with the hour, minute and second parsed from the
    string (and microsecond 0). *)
Theorem parse_datetime_time_only :
  (forall (now : datetime) (rebase : bool),
      parse_datetime now (Some "14:30") rebase
      = Ok (mk_datetime (year now) (month now) (day now) 14 30 0 0)) /\
  (forall (now : datetime) (rebase : bool) (s fmt : string) (val : datetime),
      In fmt TIME_FORMATS -> convert s fmt = Some val ->
      parse_datetime now (Some s) rebase
      = Ok (mk_datetime (year now) (month now) (day now)
                        (hour val) (minute val) (second val) 0)).
Proof.
  split; [reflexivity|].
  intros now rebase s fmt val Hin H.
  unfold parse_datetime, parse_datetime_log.
  pose proof (time_only_not_now _ _ _ Hin H) as N. unfold is_now in N.
  rewrite N, (time_only_not_system _ _ _ Hin H).
  destruct (try_formats_unique s fmt val TIME_FORMATS) as [tried ->]; auto.
  intros g w Hg Cg. eapply time_only_unique; eauto.
Qed.

Lemma parse_datetime_time_only_witness :
  parse_datetime sample_now (Some "11:05:07 pm") false
  = Ok (mk_datetime 2024 5 6 23 5 7 0).
Proof.
  apply (proj2 parse_datetime_time_only sample_now false "11:05:07 pm"
           "%I:%M:%S %p" (mk_datetime 1900 1 1 23 5 7 0)).
  - simpl. auto.
  - reflexivity.
Defined.

(** ** Failure *)

Lemma in_candidates (f : string) :
  In f candidate_formats <->
  f = SYSTEM_FORMAT \/ In f TIME_FORMATS \/ In f combined.
Proof.
  unfold candidate_formats. split.
  - intros [H|H]; [now left|]. apply in_app_or in H. now right.
  - intros [H|H]; [now left|]. right. now apply in_or_app.
Qed.

(** What [parse_datetime] does with a string, stage by stage. *)
Lemma parse_datetime_stages (now : datetime) (s : string) (rebase : bool) :
  parse_datetime now (Some s) rebase =
  if is_now s then Ok (truncated now)
  else match convert s SYSTEM_FORMAT with
       | Some rv => Ok rv
       | None =>
           match snd (try_formats s TIME_FORMATS) with
           | Some val =>
               Ok (mk_datetime (year now) (month now) (day now)
                               (hour val) (minute val) (second val) 0)
           | None =>
               match snd (try_formats s combined) with
               | Some rv => Ok rv
               | None => Raise InvalidFormat
               end
           end
       end.
Proof.
  unfold parse_datetime, parse_datetime_log, is_now.
  destruct (_ || _); [reflexivity|].
  destruct (convert s SYSTEM_FORMAT); [reflexivity|].
  destruct (try_formats s TIME_FORMATS) as [tr [val|]]; [reflexivity|].
  destruct (try_formats s combined) as [tr' [rv|]]; reflexivity.
Qed.

Lemma try_formats_snd_none (s : string) (fmts : list string) :
  snd (try_formats s fmts) = None <-> forall f, In f fmts -> convert s f = None.
Proof.
  destruct (try_formats s fmts) as [tr [v|]] eqn:T; simpl.
  - split; [discriminate|]. intros H.
    apply try_formats_some in T.
    destruct T as (pre & fmt & post & -> & _ & _ & C).
    rewrite H in C; [discriminate|]. apply in_or_app. right. now left.
  - split; [|reflexivity]. intros _. now apply try_formats_none in T.
Qed.

(** C3, as the code has it.  For a string that is not "now" (in any case),
    [parse_datetime] fails exactly when [convert] fails on every candidate
    format, and the error is then [ValueError('invalid date format')];
    that is the only error [parse_datetime] raises; a format whose first
    match stops before the end of the string does not convert it;
    "not-a-date" fails.  An absent string and "now" never fail. *)
Theorem parse_datetime_failure :
  (forall (now : datetime) (rebase : bool) (s : string),
      parse_datetime now (Some s) rebase = Raise InvalidFormat <->
      is_now s = false /\
      forall fmt, In fmt candidate_formats -> convert s fmt = None) /\
  (forall (now : datetime) (rebase : bool) (s : option string) (e : exn),
      parse_datetime now s rebase = Raise e ->
      e = InvalidFormat /\ exists str, s = Some str /\ is_now str = false) /\
  (forall (s fmt m rest : string) (r : re) (c : caps),
      pattern fmt = Some r -> re_match r s = Some (m, c, rest) ->
      rest <> "" -> convert s fmt = None) /\
  (forall (now : datetime) (rebase : bool),
      parse_datetime now (Some "not-a-date") rebase = Raise InvalidFormat).
Proof.
  split; [|split; [|split]].
  - intros now rebase s. rewrite parse_datetime_stages.
    destruct (is_now s).
    { split; [discriminate|]. intros [? _]. discriminate. }
    split.
    + intros H. split; [reflexivity|].
      destruct (convert s SYSTEM_FORMAT) eqn:E1; [discriminate|].
      destruct (snd (try_formats s TIME_FORMATS)) eqn:E2; [discriminate|].
      destruct (snd (try_formats s combined)) eqn:E3; [discriminate|].
      intros fmt Hin. apply in_candidates in Hin.
      destruct Hin as [->|[Hin|Hin]]; auto.
      * now apply (proj1 (try_formats_snd_none s TIME_FORMATS)).
      * now apply (proj1 (try_formats_snd_none s combined)).
    + intros [_ H].
      rewrite (H SYSTEM_FORMAT) by (apply in_candidates; auto).
      rewrite (proj2 (try_formats_snd_none s TIME_FORMATS))
        by (intros f Hf; apply H, in_candidates; auto).
      rewrite (proj2 (try_formats_snd_none s combined))
        by (intros f Hf; apply H, in_candidates; auto).
      reflexivity.
  - intros now rebase [s|] e; [|discriminate].
    rewrite parse_datetime_stages.
    destruct (is_now s) eqn:N; [discriminate|].
    destruct (convert s SYSTEM_FORMAT); [discriminate|].
    destruct (snd (try_formats s TIME_FORMATS)); [discriminate|].
    destruct (snd (try_formats s combined)); [discriminate|].
    intros [= <-]. split; [reflexivity|]. exists s. auto.
  - intros s fmt m rest r c. apply convert_leftover.
  - intros now rebase. vm_compute. reflexivity.
Qed.

Lemma parse_datetime_failure_witness :
  parse_datetime sample_now (Some "2020-02-30 14:30") true = Raise InvalidFormat
  /\ convert "14:30 tomorrow" "%H:%M" = None.
Proof.
  destruct parse_datetime_failure as (Hiff & _ & Hleft & _).
  split.
  - apply (proj2 (Hiff sample_now true "2020-02-30 14:30")).
    split; [reflexivity|]. apply none_converts_spec. vm_compute. reflexivity.
  - apply (Hleft "14:30 tomorrow" "%H:%M" "14:30" " tomorrow"
             (Seq (Grp "H" re_H) (Seq (chr ":") (Seq (Grp "M" re_M) Eps)))
             [("H", "14"); ("M", "30")]).
    + reflexivity.
    + reflexivity.
    + discriminate.
Defined.

(** C3 as stated fails at "now": no candidate format converts it, and yet
    [parse_datetime] does not fail. *)
Lemma parse_datetime_now_is_no_failure :
  ~ (parse_datetime sample_now (Some "now") true = Raise InvalidFormat <->
     forall fmt, In fmt candidate_formats -> convert "now" fmt = None).
Proof.
  intros [_ H].
  assert (N : forall fmt, In fmt candidate_formats -> convert "now" fmt = None).
  { apply none_converts_spec. vm_compute. reflexivity. }
  specialize (H N). discriminate.
Qed.

(** ** Date and time together *)

Lemma combined_order (i j : nat) (t d : string) :
  nth_error TIME_FORMATS i = Some t -> nth_error DATE_FORMATS j = Some d ->
  nth_error combined (2 * (9 * i + j)) = Some (t ++ " " ++ d) /\
  nth_error combined (2 * (9 * i + j) + 1) = Some (d ++ " " ++ t).
Proof.
  intros Ht Hd.
  do 4 (destruct i as [|i]; [injection Ht as <-;
    do 9 (destruct j as [|j]; [injection Hd as <-; split; reflexivity|]);
    destruct j; discriminate|]).
  destruct i; discriminate.
Qed.

Lemma in_combined (f : string) :
  In f combined <->
  exists t d, In t TIME_FORMATS /\ In d DATE_FORMATS /\
              (f = t ++ " " ++ d \/ f = d ++ " " ++ t).
Proof.
  unfold combined. rewrite in_flat_map. split.
  - intros (t & Ht & H). apply in_flat_map in H. destruct H as (d & Hd & H).
    exists t, d. simpl in H. intuition.
  - intros (t & d & Ht & Hd & H). exists t. split; [assumption|].
    apply in_flat_map. exists d. split; [assumption|]. simpl. intuition.
Qed.

(** C7. The last stage walks [combined]: for each time format and each
    date format, in the order of the two lists, first "time date" and
    then "date time", 72 formats in all.  When the string is not "now"
    and neither the system format nor a time-only format converts it,
    [parse_datetime] hands these formats to [convert] in that order up to
    the first one that converts the string, and returns that result; a
    format converts the string only if the first match of its pattern is
    the whole string; when none converts, the error is raised after all
    have been tried. *)
Theorem parse_datetime_combined_stage :
  (List.length combined = 72%nat /\
   (forall f, In f combined <->
      exists t d, In t TIME_FORMATS /\ In d DATE_FORMATS /\
                  (f = t ++ " " ++ d \/ f = d ++ " " ++ t)) /\
   forall i j t d,
     nth_error TIME_FORMATS i = Some t -> nth_error DATE_FORMATS j = Some d ->
     nth_error combined (2 * (9 * i + j)) = Some (t ++ " " ++ d) /\
     nth_error combined (2 * (9 * i + j) + 1) = Some (d ++ " " ++ t)) /\
  (forall (now : datetime) (rebase : bool) (s : string),
     is_now s = false -> convert s SYSTEM_FORMAT = None ->
     (forall f, In f TIME_FORMATS -> convert s f = None) ->
     (forall pre fmt post dt,
        combined = (pre ++ fmt :: post)%list ->
        (forall f, In f pre -> convert s f = None) ->
        convert s fmt = Some dt ->
        parse_datetime_log now (Some s) rebase
          = ((SYSTEM_FORMAT :: TIME_FORMATS ++ pre ++ [fmt])%list, Ok dt) /\
        parse_datetime now (Some s) rebase = Ok dt /\
        exists r c, pattern fmt = Some r /\ re_match r s = Some (s, c, "")) /\
     ((forall f, In f combined -> convert s f = None) ->
        parse_datetime_log now (Some s) rebase
          = ((SYSTEM_FORMAT :: TIME_FORMATS ++ combined)%list,
             Raise InvalidFormat))).
Proof.
  split.
  - split; [reflexivity|]. split; [exact in_combined | exact combined_order].
  - intros now rebase s N S T.
    assert (L : forall tried r,
               try_formats s combined = (tried, r) ->
               parse_datetime_log now (Some s) rebase
               = ((SYSTEM_FORMAT :: TIME_FORMATS ++ tried)%list,
                  match r with Some rv => Ok rv | None => Raise InvalidFormat end)).
    { intros tried r E. unfold parse_datetime_log. unfold is_now in N.
      rewrite N, S.
      rewrite (proj2 (try_formats_none s TIME_FORMATS TIME_FORMATS)) by auto.
      rewrite E. destruct r; reflexivity. }
    split.
    + intros pre fmt post dt E Hpre Hfmt.
      pose proof (try_formats_first s pre post fmt dt Hpre Hfmt) as F.
      rewrite <- E in F. apply L in F. split; [exact F|]. split.
      * unfold parse_datetime. now rewrite F.
      * eapply convert_full_match; eauto.
    + intros Hall. apply (L combined None).
      apply (proj2 (try_formats_none s combined combined)). auto.
Qed.

Lemma parse_datetime_combined_stage_witness :
  parse_datetime sample_now (Some "310220 14:30") true
  = Ok (mk_datetime 2031 2 20 14 30 0 0).
Proof.
  refine (proj1 (proj2 (proj1 (proj2 parse_datetime_combined_stage
            sample_now true "310220 14:30" _ _ _)
            (firstn 17 combined) "%y%m%d %H:%M" (skipn 18 combined)
            (mk_datetime 2031 2 20 14 30 0 0) _ _ _))).
  - reflexivity.
  - reflexivity.
  - apply none_converts_spec. vm_compute. reflexivity.
  - reflexivity.
  - apply none_converts_spec. vm_compute. reflexivity.
  - reflexivity.
Defined.

(** ** US phone numbers *)

Ltac invert_matches :=
  repeat match goal with
         | H : matches Eps _ _ |- _ => inversion H; subst; clear H
         | H : matches (Cls _) _ _ |- _ => inversion H; subst; clear H
         | H : matches (Seq _ _) _ _ |- _ => inversion H; subst; clear H
         | H : matches (Alt _ _) _ _ |- _ => inversion H; subst; clear H
         | H : matches (Plus _) _ _ |- _ => inversion H; subst; clear H
         | H : matches (Grp _ _) _ _ |- _ => inversion H; subst; clear H
         end.

Lemma phone_digits_strip_clean (value : string) :
  all (fun c => negb (phone_strip_class c)) (phone_digits_strip value) = true.
Proof.
  induction value as [|c v IH]; simpl; [reflexivity|].
  destruct (phone_strip_class c) eqn:E; simpl; [assumption|].
  now rewrite E, IH.
Qed.

(** After the separators are gone no newline is left for [$] to skip. *)
Lemma phone_digits_strip_end (value m rest : string) :
  phone_digits_strip value = m ++ rest -> at_end rest = true -> rest = "".
Proof.
  intros E H. destruct rest as [|c [|d rest]]; try reflexivity; try discriminate.
  simpl in H. apply Ascii.eqb_eq in H. subst c.
  pose proof (phone_digits_strip_clean value) as C.
  rewrite E, all_append in C. apply andb_prop in C as [_ C]. discriminate.
Qed.

(** What [_phone_digits_re] can match: an optional "1" and ten digits,
    captured as groups of three, three and four. *)
Lemma phone_digits_re_matches (m : string) (c : caps) :
  matches phone_digits_re m c ->
  exists d0 d1 d2 d3 d4 d5 d6 d7 d8 d9 : ascii,
    all is_digit (String d0 (String d1 (String d2 (String d3 (String d4
      (String d5 (String d6 (String d7 (String d8 (String d9 ""))))))))))
      = true /\
    c = [("1", String d0 (String d1 (String d2 "")));
         ("2", String d3 (String d4 (String d5 "")));
         ("3", String d6 (String d7 (String d8 (String d9 ""))))] /\
    (m = String d0 (String d1 (String d2 (String d3 (String d4
           (String d5 (String d6 (String d7 (String d8 (String d9 "")))))))))
     \/ m = String "1" (String d0 (String d1 (String d2 (String d3 (String d4
           (String d5 (String d6 (String d7 (String d8 (String d9 ""))))))))))).
Proof.
  unfold phone_digits_re, d4, d3. intros H. invert_matches;
    repeat match goal with
           | H : lit _ _ = true |- _ =>
               unfold lit in H; apply Ascii.eqb_eq in H; subst
           end;
    repeat eexists; simpl;
    repeat match goal with H : is_digit _ = true |- _ => rewrite H; clear H end;
    auto.
Qed.

(** C10. When [TextField.convert] hands over a non-empty text and
    [USPhoneNumberField.convert] accepts it, the value returned is
    ddd-ddd-dddd, made of digits whose first is neither 0 nor 1; the text
    with its dashes, dots, parentheses and whitespace removed is these ten
    digits, or a "1" followed by these ten digits. *)
Theorem USPhoneNumberField_convert_normalized
        (TextField_convert : string -> result string) (required : bool)
        (value text out : string) :
  TextField_convert value = Ok text -> text <> "" ->
  USPhoneNumberField_convert TextField_convert required value = Ok out ->
  exists d0 d1 d2 d3 d4 d5 d6 d7 d8 d9 : ascii,
    all is_digit (String d0 (String d1 (String d2 (String d3 (String d4
      (String d5 (String d6 (String d7 (String d8 (String d9 ""))))))))))
      = true /\
    out = String d0 (String d1 (String d2 (String "-"
          (String d3 (String d4 (String d5 (String "-"
          (String d6 (String d7 (String d8 (String d9 ""))))))))))) /\
    d0 <> "0"%char /\ d0 <> "1"%char /\
    (phone_digits_strip text
       = String d0 (String d1 (String d2 (String d3 (String d4
           (String d5 (String d6 (String d7 (String d8 (String d9 "")))))))))
     \/ phone_digits_strip text
       = String "1" (String d0 (String d1 (String d2 (String d3 (String d4
           (String d5 (String d6 (String d7 (String d8 (String d9 ""))))))))))).
Proof.
  intros HT Hne. unfold USPhoneNumberField_convert. rewrite HT.
  apply String.eqb_neq in Hne. rewrite Hne. simpl andb. cbv iota.
  destruct (re_match_dollar phone_digits_re (phone_digits_strip text))
    as [[m groups]|] eqn:E; [|discriminate].
  apply re_match_dollar_sound in E. destruct E as (rest & Hs & Hend & M).
  rewrite (phone_digits_strip_end _ _ _ Hs Hend), append_nil_r in Hs.
  apply phone_digits_re_matches in M.
  destruct M as (d0 & d1 & d2 & d3 & d4 & d5 & d6 & d7 & d8 & d9 & D & -> & Hm).
  simpl. destruct (Ascii.eqb d0 "0") eqn:E0; simpl; [discriminate|].
  destruct (Ascii.eqb d0 "1") eqn:E1; simpl; [discriminate|].
  intros [= <-].
  exists d0, d1, d2, d3, d4, d5, d6, d7, d8, d9.
  apply Ascii.eqb_neq in E0, E1.
  repeat split; auto. rewrite Hs. exact Hm.
Qed.

Lemma USPhoneNumberField_convert_normalized_witness :
  exists d0 d1 d2 d3 d4 d5 d6 d7 d8 d9 : ascii,
    all is_digit (String d0 (String d1 (String d2 (String d3 (String d4
      (String d5 (String d6 (String d7 (String d8 (String d9 ""))))))))))
      = true /\
    "555-867-5309"
        = String d0 (String d1 (String d2 (String "-"
          (String d3 (String d4 (String d5 (String "-"
          (String d6 (String d7 (String d8 (String d9 ""))))))))))) /\
    d0 <> "0"%char /\ d0 <> "1"%char /\
    (phone_digits_strip "1.(555)   867 - 5309"
       = String d0 (String d1 (String d2 (String d3 (String d4
           (String d5 (String d6 (String d7 (String d8 (String d9 "")))))))))
     \/ phone_digits_strip "1.(555)   867 - 5309"
       = String "1" (String d0 (String d1 (String d2 (String d3 (String d4
           (String d5 (String d6 (String d7 (String d8 (String d9 ""))))))))))).
Proof.
  apply (USPhoneNumberField_convert_normalized Ok false
           "1.(555)   867 - 5309" "1.(555)   867 - 5309" "555-867-5309").
  - reflexivity.
  - discriminate.
  - reflexivity.
Defined.

(** ** The system format, written and read back *)

(** C2, at a year below 1000.  [datetime(999, 1, 1, 0, 0)] is a valid
    datetime; [format_system_datetime] writes its year with [%d], in three
    characters, where the documented layout YYYY-MM-DD hh:mm has four. *)
Theorem format_system_datetime_year_999 (rebase : bool) :
  valid_datetime (mk_datetime 999 1 1 0 0 0 0) = true /\
  format_system_datetime (mk_datetime 999 1 1 0 0 0 0) rebase
  = "999-01-01 00:00" /\
  String.length (format_system_datetime (mk_datetime 999 1 1 0 0 0 0) rebase)
  = 15%nat.
Proof. repeat split. Qed.

(** C1, at a year below 1000.  "0999-01-01 00:00" is parsed by the system
    format, and the datetime it yields is written back without the leading
    zero of the year: the round trip does not return the original. *)
Theorem parse_then_format_year_0999 (now : datetime) (rebase rebase' : bool) :
  parse_datetime now (Some "0999-01-01 00:00") rebase
  = Ok (mk_datetime 999 1 1 0 0 0 0) /\
  format_system_datetime (mk_datetime 999 1 1 0 0 0 0) rebase'
  = "999-01-01 00:00" /\
  format_system_datetime (mk_datetime 999 1 1 0 0 0 0) rebase'
  <> "0999-01-01 00:00".
Proof. repeat split. discriminate. Qed.

(** ** Where the system format is written as documented *)

Lemma holds_on_spec (check : Z -> bool) (lo : Z) (len : nat) (n : Z) :
  holds_on check lo len = true -> lo <= n < lo + Z.of_nat len ->
  check n = true.
Proof.
  unfold holds_on. rewrite forallb_forall. intros H Hn.
  specialize (H (Z.to_nat (n - lo))).
  replace (lo + Z.of_nat (Z.to_nat (n - lo))) with n in H by lia.
  apply H, in_seq. lia.
Qed.

Lemma fmt_02d_two_digits (n : Z) : 0 <= n <= 99 -> fmt_02d n = two_digits n.
Proof.
  intros H. apply String.eqb_eq.
  apply (holds_on_spec (fun k => String.eqb (fmt_02d k) (two_digits k)) 0 100).
  - vm_compute. reflexivity.
  - lia.
Qed.

Lemma fmt_d_four_digits (n : Z) : 1000 <= n <= 9999 -> fmt_d n = four_digits n.
Proof.
  intros H. apply String.eqb_eq.
  apply (holds_on_spec (fun k => String.eqb (fmt_d k) (four_digits k)) 1000 (Z.to_nat 9000)).
  - vm_compute. reflexivity.
  - lia.
Qed.

Lemma days_in_month_le (y m : Z) : days_in_month y m <= 31.
Proof.
  unfold days_in_month.
  destruct (m =? 2); [destruct (is_leap y); lia|].
  destruct (_ || _); lia.
Qed.

(** From year 1000 on, a valid datetime is written as YYYY-MM-DD hh:mm with
    every field padded, and the seconds are left out. *)
Lemma format_system_datetime_padded (dt : datetime) (rebase : bool) :
  valid_datetime dt = true -> 1000 <= year dt ->
  format_system_datetime dt rebase
  = four_digits (year dt) ++ "-" ++ two_digits (month dt) ++ "-"
    ++ two_digits (day dt) ++ " " ++ two_digits (hour dt) ++ ":"
    ++ two_digits (minute dt).
Proof.
  unfold valid_datetime, valid_date, valid_time. intros V Y.
  repeat (apply andb_prop in V; destruct V as [V ?]).
  repeat match goal with
         | H : (_ <=? _) = true |- _ => apply Z.leb_le in H
         end.
  pose proof (days_in_month_le (year dt) (month dt)).
  unfold format_system_datetime.
  rewrite fmt_d_four_digits, !fmt_02d_two_digits by lia. reflexivity.
Qed.

(** A second of 60 is matched by [%S] and refused by the datetime
    constructor: the attempt fails like any other. *)
Example leap_second_is_a_failed_attempt (now : datetime) (rebase : bool) :
  option_map tm_sec (strptime "12:30:60" "%H:%M:%S") = Some 60 /\
  convert "12:30:60" "%H:%M:%S" = None /\
  parse_datetime now (Some "12:30:60") rebase = Raise InvalidFormat.
Proof. repeat split. Qed.

(** ** The round trip from year 1000 on

    The declarative reading of the system format's pattern leaves one way
    to cut a string laid out as YYYY-MM-DD HH:MM into groups; the fields
    read from the groups are written back digit for digit, as long as the
    year does not start with a zero. *)

Lemma cls_char (p : ascii -> bool) (x c : ascii) :
  cls_within p (fun c => Ascii.eqb c x) = true -> p c = true -> c = x.
Proof.
  intros W H. apply Ascii.eqb_eq. exact (cls_within_spec _ _ c W H).
Qed.

Ltac class_facts :=
  repeat match goal with
         | H : lit_i ?x ?c = true |- _ =>
             first [ apply (cls_char (lit_i x) x c ltac:(vm_compute; reflexivity)) in H
                   | apply (cls_within_spec (lit_i x) is_digit c ltac:(vm_compute; reflexivity)) in H ]
         | H : in_range ?a ?b ?c = true |- _ =>
             apply (cls_within_spec (in_range a b) is_digit c ltac:(vm_compute; reflexivity)) in H
         end.

(** What the expressions of the directives can match. *)
Lemma re_Y_matches (m : string) (c : caps) : matches re_Y m c ->
  c = [] /\ exists y1 y2 y3 y4, m = String y1 (String y2 (String y3 (String y4 "")))
     /\ all is_digit m = true.
Proof.
  unfold re_Y, dig. intros H. invert_matches. split; [reflexivity|].
  repeat eexists. simpl.
  repeat match goal with H : is_digit _ = true |- _ => rewrite H; clear H end.
  reflexivity.
Qed.

Lemma re_m_matches (m : string) (c : caps) :
  matches re_m m c -> c = [] /\ digits12 m.
Proof.
  unfold re_m, chr, rng, dig, digits12. intros H. invert_matches; class_facts; subst;
  (split; [reflexivity|]); simpl; eauto 10.
Qed.

Lemma re_H_matches (m : string) (c : caps) :
  matches re_H m c -> c = [] /\ digits12 m.
Proof.
  unfold re_H, chr, rng, dig, digits12. intros H. invert_matches; class_facts; subst;
  (split; [reflexivity|]); simpl; eauto 10.
Qed.

Lemma re_M_matches (m : string) (c : caps) :
  matches re_M m c -> c = [] /\ digits12 m.
Proof.
  unfold re_M, chr, rng, dig, digits12. intros H. invert_matches; class_facts; subst;
  (split; [reflexivity|]); simpl; eauto 10.
Qed.

Lemma re_d_matches (m : string) (c : caps) : matches re_d m c ->
  c = [] /\ (digits12 m \/ exists a, m = String " " (String a "")).
Proof.
  unfold re_d, chr, rng, dig, digits12. intros H. invert_matches; class_facts; subst;
  (split; [reflexivity|]); simpl; eauto 10.
Qed.

Lemma pattern_system :
  pattern SYSTEM_FORMAT
  = Some (Seq (Grp "Y" re_Y) (Seq (chr "-") (Seq (Grp "m" re_m) (Seq (chr "-")
      (Seq (Grp "d" re_d) (Seq (Plus is_space) (Seq (Grp "H" re_H)
      (Seq (chr ":") (Seq (Grp "M" re_M) Eps))))))))).
Proof. reflexivity. Qed.

(** The texts the pattern of the system format can match, and the groups
    it captures in them. *)
Lemma system_pattern_matches (r : re) (m : string) (c : caps) :
  pattern SYSTEM_FORMAT = Some r -> matches r m c ->
  exists Y mo d sp ws H M,
    m = Y ++ String "-" (mo ++ String "-" (d ++ String sp (ws ++ (H ++ String ":" M))))
    /\ c = [("Y", Y); ("m", mo); ("d", d); ("H", H); ("M", M)]
    /\ (exists y1 y2 y3 y4, Y = String y1 (String y2 (String y3 (String y4 "")))
                            /\ all is_digit Y = true)
    /\ digits12 mo
    /\ (digits12 d \/ exists a, d = String " " (String a ""))
    /\ is_space sp = true /\ all is_space ws = true
    /\ digits12 H /\ digits12 M.
Proof.
  rewrite pattern_system. intros [= <-] HM. unfold chr in HM.
  invert_matches. class_facts. subst.
  repeat match goal with
         | H : matches re_Y _ _ |- _ => apply re_Y_matches in H; destruct H as [-> ?]
         | H : matches re_m _ _ |- _ => apply re_m_matches in H; destruct H as [-> ?]
         | H : matches re_d _ _ |- _ => apply re_d_matches in H; destruct H as [-> ?]
         | H : matches re_H _ _ |- _ => apply re_H_matches in H; destruct H as [-> ?]
         | H : matches re_M _ _ |- _ => apply re_M_matches in H; destruct H as [-> ?]
         end.
  do 7 eexists. split; [|split; [reflexivity|]].
  2:{ repeat split; eauto. }
  simpl. rewrite !append_nil_r. reflexivity.
Qed.

Lemma is_system_string_inv (s : string) : is_system_string s = true ->
  exists y1 y2 y3 y4 m1 m2 d1 d2 h1 h2 n1 n2,
    s = String y1 (String y2 (String y3 (String y4 (String "-"
        (String m1 (String m2 (String "-" (String d1 (String d2 (String " "
        (String h1 (String h2 (String ":" (String n1 (String n2 "")))))))))))))))
    /\ is_digit y1 = true /\ is_digit y2 = true /\ is_digit y3 = true
    /\ is_digit y4 = true /\ is_digit m1 = true /\ is_digit m2 = true
    /\ is_digit d1 = true /\ is_digit d2 = true /\ is_digit h1 = true
    /\ is_digit h2 = true /\ is_digit n1 = true /\ is_digit n2 = true.
Proof.
  unfold is_system_string.
  do 16 (destruct s as [|? s]; [discriminate|]).
  destruct s; [|discriminate]. intros H.
  repeat (apply andb_prop in H; destruct H as [H ?]).
  repeat match goal with
         | E : Ascii.eqb _ _ = true |- _ => apply Ascii.eqb_eq in E; subst
         end.
  simpl in *. 
  repeat match goal with
         | E : _ && _ = true |- _ => apply andb_prop in E; destruct E
         end.
  do 12 eexists. repeat split; eauto.
Qed.

Lemma digit_not_space (c : ascii) :
  is_digit c = true -> is_space c = true -> False.
Proof.
  intros D S.
  pose proof (cls_within_spec is_digit (fun c => negb (is_space c)) c
                ltac:(vm_compute; reflexivity) D) as N.
  simpl in N. rewrite S in N. discriminate.
Qed.

Ltac peel :=
  repeat match goal with
         | E : String _ _ = String _ _ |- _ => injection E; clear E; intros; subst
         | E : String _ _ = EmptyString |- _ => discriminate E
         | E : EmptyString = String _ _ |- _ => discriminate E
         end.

Ltac absurd_class :=
  match goal with
  | H1 : is_digit ?c = true, H2 : is_space ?c = true |- _ =>
      exfalso; exact (digit_not_space c H1 H2)
  | H : is_digit ?c = true |- _ => exfalso; vm_compute in H; discriminate H
  | H : is_space ?c = true |- _ => exfalso; vm_compute in H; discriminate H
  end.

(** A string laid out as YYYY-MM-DD HH:MM is cut into groups in one way
    only. *)
Lemma system_string_groups (r : re) (c : caps)
      (y1 y2 y3 y4 m1 m2 d1 d2 h1 h2 n1 n2 : ascii) :
  is_digit m1 = true -> is_digit m2 = true -> is_digit d1 = true ->
  is_digit d2 = true -> is_digit h1 = true -> is_digit h2 = true ->
  is_digit n1 = true -> is_digit n2 = true ->
  pattern SYSTEM_FORMAT = Some r ->
  matches r (String y1 (String y2 (String y3 (String y4 (String "-"
        (String m1 (String m2 (String "-" (String d1 (String d2 (String " "
        (String h1 (String h2 (String ":" (String n1 (String n2 ""))))))))))))))))
          c ->
  c = [("Y", String y1 (String y2 (String y3 (String y4 ""))));
       ("m", String m1 (String m2 "")); ("d", String d1 (String d2 ""));
       ("H", String h1 (String h2 "")); ("M", String n1 (String n2 ""))].
Proof.
  intros Dm1 Dm2 Dd1 Dd2 Dh1 Dh2 Dn1 Dn2 P M.
  destruct (system_pattern_matches _ _ _ P M)
    as (Y & mo & d & sp & ws & H & Mi & E & -> & HY & Hmo & Hd & Hsp & Hws & HH & HMi).
  destruct HY as (a1 & a2 & a3 & a4 & -> & _).
  destruct Hmo as [(a & b & -> & ? & ?) | (a & -> & ?)];
  destruct Hd as [[(a' & b' & -> & ? & ?) | (a' & -> & ?)] | (a' & ->)];
  simpl in E; peel; try absurd_class.
  destruct ws as [|w ws]; simpl in *.
  2:{ apply andb_prop in Hws as [? ?]. peel. absurd_class. }
  destruct HH as [(e & f & -> & ? & ?) | (e & -> & ?)];
  destruct HMi as [(e' & f' & -> & ? & ?) | (e' & -> & ?)];
  simpl in *; peel; try absurd_class.
  reflexivity.
Qed.

Lemma digit_cases (c : ascii) : is_digit c = true -> In c digit_chars.
Proof.
  intros H.
  pose proof (cls_within_spec is_digit
                (fun c => existsb (Ascii.eqb c) digit_chars) c
                ltac:(vm_compute; reflexivity) H) as E.
  cbv beta in E. apply existsb_exists in E. destruct E as (x & Hx & E).
  apply Ascii.eqb_eq in E. now subst.
Qed.

Lemma forall_digits (P : ascii -> bool) :
  forallb P digit_chars = true -> forall a, is_digit a = true -> P a = true.
Proof.
  intros H a Ha. rewrite forallb_forall in H. apply H, digit_cases, Ha.
Qed.

Lemma two_digit_field (a b : ascii) :
  is_digit a = true -> is_digit b = true ->
  exists v, py_int (String a (String b "")) = Some v /\
            fmt_02d v = String a (String b "").
Proof.
  intros Ha Hb.
  pose (P := fun a b : ascii =>
               match py_int (String a (String b "")) with
               | Some v => String.eqb (fmt_02d v) (String a (String b ""))
               | None => false
               end).
  assert (X : P a b = true).
  { revert b Hb. apply forall_digits. revert a Ha. apply forall_digits.
    vm_compute. reflexivity. }
  unfold P in X. destruct (py_int _) as [v|]; [|discriminate].
  exists v. split; [reflexivity|]. now apply String.eqb_eq.
Qed.

Lemma four_digit_field (a b c d : ascii) :
  is_digit a = true -> is_digit b = true ->
  is_digit c = true -> is_digit d = true ->
  exists v, py_int (String a (String b (String c (String d "")))) = Some v /\
            (a <> "0"%char ->
             fmt_d v = String a (String b (String c (String d "")))).
Proof.
  intros Ha Hb Hc Hd.
  pose (P := fun a b c d : ascii =>
               match py_int (String a (String b (String c (String d "")))) with
               | Some v => Ascii.eqb a "0"
                           || String.eqb (fmt_d v)
                                (String a (String b (String c (String d ""))))
               | None => false
               end).
  assert (X : P a b c d = true).
  { revert d Hd. apply forall_digits. revert c Hc. apply forall_digits.
    revert b Hb. apply forall_digits. revert a Ha. apply forall_digits.
    vm_compute. reflexivity. }
  unfold P in X. destruct (py_int _) as [v|]; [|discriminate].
  exists v. split; [reflexivity|]. intros N.
  apply orb_prop in X. destruct X as [X|X].
  - apply Ascii.eqb_eq in X. contradiction.
  - now apply String.eqb_eq.
Qed.

Lemma set_fields_system (Y mo d H M : string) (vY vmo vd vH vM : Z) :
  py_int Y = Some vY -> py_int mo = Some vmo -> py_int d = Some vd ->
  py_int H = Some vH -> py_int M = Some vM ->
  set_fields [("Y", Y); ("m", mo); ("d", d); ("H", H); ("M", M)]
             [("Y", Y); ("m", mo); ("d", d); ("H", H); ("M", M)] fields0
  = Some (mk_fields vY vmo vd vH vM 0).
Proof.
  intros HY Hmo Hd HH HM. unfold set_fields, set_field, fields0. simpl.
  rewrite HY. simpl. rewrite Hmo. simpl. rewrite Hd. simpl.
  rewrite HH. simpl. rewrite HM. reflexivity.
Qed.

(** What the system format reads from such a string is written back as
    the same string. *)
Lemma convert_system_string (s : string) (rv : datetime) (rebase : bool) :
  is_system_string s = true ->
  (forall c rest, s = String c rest -> c <> "0"%char) ->
  convert s SYSTEM_FORMAT = Some rv ->
  format_system_datetime rv rebase = s.
Proof.
  intros HS Hy H.
  destruct (is_system_string_inv s HS)
    as (y1 & y2 & y3 & y4 & m1 & m2 & d1 & d2 & h1 & h2 & n1 & n2 & -> &
        Dy1 & Dy2 & Dy3 & Dy4 & Dm1 & Dm2 & Dd1 & Dd2 & Dh1 & Dh2 & Dn1 & Dn2).
  specialize (Hy _ _ eq_refl).
  unfold convert, strptime in H.
  destruct (pattern SYSTEM_FORMAT) as [r|] eqn:P; [|discriminate].
  destruct (re_match r _) as [[[m found] rest]|] eqn:E; [|discriminate].
  destruct rest; [|discriminate].
  apply re_match_sound in E. destruct E as [Em M].
  rewrite append_nil_r in Em. subst m.
  apply (system_string_groups r found) in M; auto. subst found.
  destruct (four_digit_field y1 y2 y3 y4) as (vY & IY & FY); auto.
  destruct (two_digit_field m1 m2) as (vm & Im & Fm); auto.
  destruct (two_digit_field d1 d2) as (vd & Id & Fd); auto.
  destruct (two_digit_field h1 h2) as (vh & Ih & Fh); auto.
  destruct (two_digit_field n1 n2) as (vn & In_ & Fn); auto.
  rewrite (set_fields_system _ _ _ _ _ _ _ _ _ _ IY Im Id Ih In_) in H.
  destruct (valid_date vY vm vd && valid_date vY 1 1); [|discriminate].
  cbn [tm_year tm_mon tm_mday tm_hour tm_min tm_sec tm_wday] in H.
  unfold datetime_new in H.
  destruct (_ && _); [|discriminate].
  injection H as <-.
  unfold format_system_datetime, replace, or_else.
  cbn [year month day hour minute].
  rewrite (FY Hy), Fm, Fd, Fh, Fn. reflexivity.
Qed.

Lemma try_formats_snd_some (s : string) (fmts : list string) (v : datetime) :
  snd (try_formats s fmts) = Some v ->
  exists f, In f fmts /\ convert s f = Some v.
Proof.
  destruct (try_formats s fmts) as [tr r] eqn:T. simpl. intros ->.
  apply try_formats_some in T.
  destruct T as (pre & fmt & post & -> & _ & _ & C).
  exists fmt. split; [|assumption]. apply in_or_app. right. now left.
Qed.

Lemma lower_length (s : string) : String.length (lower s) = String.length s.
Proof. induction s; simpl; congruence. Qed.

Lemma is_now_length (s : string) : is_now s = true -> String.length s = 3%nat.
Proof.
  intros H. apply is_now_spec in H. rewrite <- lower_length, H. reflexivity.
Qed.

Lemma digit_not_dash (c : ascii) : is_digit c = true -> is_dash c = false.
Proof.
  intros D. apply negb_true_iff.
  exact (cls_within_spec is_digit (fun c => negb (is_dash c)) c
           ltac:(vm_compute; reflexivity) D).
Qed.

Lemma later_formats_have_no_dash (f : string) :
  In f (TIME_FORMATS ++ combined)%list -> format_count is_dash f = Some O.
Proof.
  intros H.
  assert (A : forallb (fun f => match format_count is_dash f with
                                | Some O => true | _ => false end)
                      (TIME_FORMATS ++ combined)%list = true)
    by (vm_compute; reflexivity).
  rewrite forallb_forall in A. specialize (A f H).
  destruct (format_count is_dash f) as [[|n]|]; congruence.
Qed.

(** No other format converts a string laid out as YYYY-MM-DD HH:MM: each
    of them fixes the number of dashes at zero. *)
Lemma system_string_later_formats (s f : string) (v : datetime) :
  is_system_string s = true -> In f (TIME_FORMATS ++ combined)%list ->
  convert s f = Some v -> False.
Proof.
  intros HS Hf C.
  pose proof (convert_count is_dash _ _ _ _ C (later_formats_have_no_dash f Hf)) as N.
  destruct (is_system_string_inv s HS)
    as (y1 & y2 & y3 & y4 & m1 & m2 & d1 & d2 & h1 & h2 & n1 & n2 & -> &
        Dy1 & Dy2 & Dy3 & Dy4 & Dm1 & Dm2 & Dd1 & Dd2 & Dh1 & Dh2 & Dn1 & Dn2).
  simpl in N.
  rewrite !digit_not_dash in N by assumption. discriminate.
Qed.

(** Parsing a string laid out as YYYY-MM-DD HH:MM whose year does not
    start with 0, then formatting the result, gives the string back. *)
Lemma system_format_roundtrip (now : datetime) (rebase rebase' : bool)
      (s : string) (dt : datetime) :
  is_system_string s = true ->
  (forall c rest, s = String c rest -> c <> "0"%char) ->
  parse_datetime now (Some s) rebase = Ok dt ->
  format_system_datetime dt rebase' = s.
Proof.
  intros HS Hy. rewrite parse_datetime_stages.
  destruct (is_now s) eqn:N.
  { apply is_now_length in N.
    destruct (is_system_string_inv s HS) as (? & ? & ? & ? & ? & ? & ? & ? & ?
                                             & ? & ? & ? & -> & _).
    discriminate. }
  destruct (convert s SYSTEM_FORMAT) as [rv|] eqn:C.
  { intros [= <-]. now apply convert_system_string. }
  destruct (snd (try_formats s TIME_FORMATS)) as [val|] eqn:T.
  { apply try_formats_snd_some in T. destruct T as (f & Hf & Cf).
    exfalso. eapply system_string_later_formats; eauto.
    apply in_or_app. now left. }
  destruct (snd (try_formats s combined)) as [rv|] eqn:T'; [|discriminate].
  apply try_formats_snd_some in T'. destruct T' as (f & Hf & Cf).
  exfalso. eapply system_string_later_formats; eauto.
  apply in_or_app. now right.
Qed.

(** ** Only valid datetimes are returned *)

Lemma convert_valid (s fmt : string) (dt : datetime) :
  convert s fmt = Some dt -> valid_datetime dt = true.
Proof.
  unfold convert. destruct (strptime s fmt) as [st|]; [|discriminate].
  unfold datetime_new.
  destruct (valid_date _ _ _) eqn:D; [|discriminate].
  destruct (valid_time _ _ _ _) eqn:T; [|discriminate].
  intros [= <-]. unfold valid_datetime, replace, or_else.
  cbn [year month day hour minute second microsecond]. rewrite D.
  unfold valid_time in *.
  repeat (apply andb_prop in T; destruct T as [T ?]).
  repeat (apply andb_true_intro; split); auto.
Qed.

(** X2. When the current time is a valid datetime, every datetime that
    [parse_datetime] returns is one too: a real calendar day, hour below
    24, minute and second below 60. *)
Theorem parse_datetime_valid (now : datetime) (s : option string)
        (rebase : bool) (dt : datetime) :
  valid_datetime now = true ->
  parse_datetime now s rebase = Ok dt -> valid_datetime dt = true.
Proof.
  intros V.
  assert (Vt : valid_datetime (truncated now) = true).
  { unfold valid_datetime, truncated, valid_time in *.
    cbn [year month day hour minute second microsecond].
    apply andb_prop in V as [D T]. rewrite D.
    repeat (apply andb_prop in T; destruct T as [T ?]).
    repeat (apply andb_true_intro; split); auto. }
  destruct s as [s|]; [|intros [= <-]; exact Vt].
  rewrite parse_datetime_stages.
  destruct (is_now s); [intros [= <-]; exact Vt|].
  destruct (convert s SYSTEM_FORMAT) as [rv|] eqn:C.
  { intros [= <-]. eapply convert_valid; eauto. }
  destruct (snd (try_formats s TIME_FORMATS)) as [val|] eqn:T.
  { intros [= <-]. apply try_formats_snd_some in T.
    destruct T as (f & _ & Cf). apply convert_valid in Cf.
    unfold valid_datetime, valid_time in *.
    cbn [year month day hour minute second microsecond].
    apply andb_prop in V as [D _]. rewrite D.
    apply andb_prop in Cf as [_ T].
    repeat (apply andb_prop in T; destruct T as [T ?]).
    repeat (apply andb_true_intro; split); auto. }
  destruct (snd (try_formats s combined)) as [rv|] eqn:T'; [|discriminate].
  intros [= <-]. apply try_formats_snd_some in T'.
  destruct T' as (f & _ & Cf). eapply convert_valid; eauto.
Qed.

Lemma parse_datetime_valid_witness :
  valid_datetime (mk_datetime 2024 5 6 23 5 7 0) = true.
Proof.
  apply (parse_datetime_valid sample_now (Some "11:05:07 PM") true).
  - reflexivity.
  - reflexivity.
Defined.

(** ** One walk through the candidates *)

Lemma try_formats_app (s : string) (l1 l2 : list string) :
  try_formats s (l1 ++ l2)%list =
  match try_formats s l1 with
  | (t1, Some v) => (t1, Some v)
  | (t1, None) => let (t2, r) := try_formats s l2 in ((t1 ++ t2)%list, r)
  end.
Proof.
  induction l1 as [|f l1 IH]; simpl.
  - now destruct (try_formats s l2).
  - destruct (convert s f); [reflexivity|]. rewrite IH.
    destruct (try_formats s l1) as [t1 [v|]]; [reflexivity|].
    now destruct (try_formats s l2).
Qed.

Lemma try_formats_last (s : string) (fmts tried : list string) (v : datetime) :
  try_formats s fmts = (tried, Some v) -> In (last tried "") fmts.
Proof.
  intros H. apply try_formats_some in H.
  destruct H as (pre & f & post & -> & -> & _).
  rewrite last_last. apply in_or_app. right. now left.
Qed.

Lemma combined_not_time_only (f : string) :
  In f combined -> is_time_only f = false.
Proof.
  intros H.
  assert (A : forallb (fun f => negb (is_time_only f)) combined = true)
    by (vm_compute; reflexivity).
  rewrite forallb_forall in A. apply negb_true_iff. now apply A.
Qed.

Lemma time_formats_time_only (f : string) :
  In f TIME_FORMATS -> is_time_only f = true.
Proof.
  intros H. unfold is_time_only. apply existsb_exists. exists f.
  split; [assumption | apply String.eqb_refl].
Qed.

Lemma last_cons_nonempty (a : string) (l : list string) :
  l <> [] -> last (a :: l) "" = last l "".
Proof. destruct l; [contradiction|reflexivity]. Qed.

Lemma try_formats_tried_nonempty (s : string) (fmts tried : list string)
      (v : datetime) :
  try_formats s fmts = (tried, Some v) -> tried <> [].
Proof.
  intros H. apply try_formats_some in H.
  destruct H as (pre & f & post & _ & -> & _). destruct pre; discriminate.
Qed.

(** [parse_datetime] on a string that is not "now" is one walk through
    [candidate_formats]. *)
Lemma parse_datetime_log_walk (now : datetime) (rebase : bool) (s : string) :
  is_now s = false ->
  parse_datetime_log now (Some s) rebase =
  let (tried, res) := try_formats s candidate_formats in
  (tried,
   match res with
   | None => Raise InvalidFormat
   | Some v => Ok (if is_time_only (last tried "") then on_today now v else v)
   end).
Proof.
  intros N. unfold parse_datetime_log, candidate_formats. unfold is_now in N.
  rewrite N. cbn [try_formats].
  destruct (convert s SYSTEM_FORMAT) as [rv|]; [reflexivity|].
  rewrite try_formats_app.
  destruct (try_formats s TIME_FORMATS) as [t1 [val|]] eqn:T1.
  - rewrite last_cons_nonempty by (eapply try_formats_tried_nonempty; eauto).
    rewrite time_formats_time_only by (eapply try_formats_last; eauto).
    reflexivity.
  - destruct (try_formats s combined) as [t2 [rv|]] eqn:T2; [|reflexivity].
    apply try_formats_none in T1 as [-> _].
    assert (L : last (SYSTEM_FORMAT :: TIME_FORMATS ++ t2) "" = last t2 "").
    { pose proof (try_formats_tried_nonempty _ _ _ _ T2) as NE.
      apply try_formats_some in T2.
      destruct T2 as (pre & f & post & _ & -> & _).
      change (SYSTEM_FORMAT :: TIME_FORMATS ++ pre ++ [f])%list
        with ((SYSTEM_FORMAT :: TIME_FORMATS ++ pre) ++ [f])%list.
      now rewrite !last_last. }
    rewrite L, combined_not_time_only by (eapply try_formats_last; eauto).
    reflexivity.
Qed.

(** X4. For a string that is not "now", [parse_datetime] walks
    [candidate_formats] (the system format, the time-only formats, the
    combined formats) in order: the first format that converts the string
    decides the result, which is the converted datetime, or today's date
    with its time when the format is a time-only one, and the formats
    handed to [convert] are exactly those up to it; when no format
    converts, all of them have been tried and the error is raised. *)
Theorem parse_datetime_first_candidate (now : datetime) (rebase : bool)
        (s : string) :
  is_now s = false ->
  (forall pre f post v,
      candidate_formats = (pre ++ f :: post)%list ->
      (forall g, In g pre -> convert s g = None) ->
      convert s f = Some v ->
      parse_datetime_log now (Some s) rebase
      = ((pre ++ [f])%list,
         Ok (if is_time_only f then on_today now v else v))) /\
  ((forall g, In g candidate_formats -> convert s g = None) ->
   parse_datetime_log now (Some s) rebase
   = (candidate_formats, Raise InvalidFormat)).
Proof.
  intros N. split.
  - intros pre f post v E Hpre Hf.
    rewrite parse_datetime_log_walk by assumption.
    rewrite E, (try_formats_first s pre post f v Hpre Hf).
    now rewrite last_last.
  - intros H. rewrite parse_datetime_log_walk by assumption.
    now rewrite (proj2 (try_formats_none s candidate_formats candidate_formats)).
Qed.

Lemma parse_datetime_first_candidate_witness :
  parse_datetime_log sample_now (Some "9:05 am") false
  = ([SYSTEM_FORMAT; "%H:%M"; "%H:%M:%S"; "%I:%M %p"],
     Ok (mk_datetime 2024 5 6 9 5 0 0)).
Proof.
  refine (proj1 (parse_datetime_first_candidate sample_now false "9:05 am" _)
            [SYSTEM_FORMAT; "%H:%M"; "%H:%M:%S"] "%I:%M %p"
            ("%I:%M:%S %p" :: combined) (mk_datetime 1900 1 1 9 5 0 0) _ _ _).
  - reflexivity.
  - reflexivity.
  - apply none_converts_spec. vm_compute. reflexivity.
  - reflexivity.
Defined.

(** ** Letter case *)

(** A fact checked on each of the 256 characters. *)
Lemma for_all_ascii (P : ascii -> bool) :
  forallb P all_ascii = true -> forall c, P c = true.
Proof.
  intros H c. rewrite forallb_forall in H. apply H, all_ascii_complete.
Qed.

Lemma lower_ascii_idempotent (c : ascii) :
  lower_ascii (lower_ascii c) = lower_ascii c.
Proof.
  apply Ascii.eqb_eq.
  apply (for_all_ascii (fun c => Ascii.eqb (lower_ascii (lower_ascii c))
                                          (lower_ascii c))).
  vm_compute. reflexivity.
Qed.

Lemma lower_idempotent (s : string) : lower (lower s) = lower s.
Proof.
  induction s as [|c s IH]; simpl; [reflexivity|].
  now rewrite lower_ascii_idempotent, IH.
Qed.

Lemma lower_append (a b : string) : lower (a ++ b) = lower a ++ lower b.
Proof. induction a as [|c a IH]; simpl; [reflexivity|]. now rewrite IH. Qed.

Lemma lower_caps_app (a b : caps) :
  lower_caps (a ++ b)%list = (lower_caps a ++ lower_caps b)%list.
Proof. apply map_app. Qed.

Lemma blind_class (p : ascii -> bool) (c : ascii) :
  cls_within (fun _ => true) (fun c => Bool.eqb (p (lower_ascii c)) (p c)) = true ->
  p (lower_ascii c) = p c.
Proof.
  intros H. apply eqb_prop.
  exact (cls_within_spec _ _ c H eq_refl).
Qed.

Lemma rmatch_ext {A : Type} (r : re) :
  forall (s : string) (k k' : string -> caps -> string -> option A),
    (forall m c rest, k m c rest = k' m c rest) ->
    rmatch r s k = rmatch r s k'.
Proof.
  induction r as [|p|r1 IH1 r2 IH2|r1 IH1 r2 IH2|p|n r IH]; simpl; intros s k k' E.
  - apply E.
  - destruct s as [|c s]; [reflexivity|]. destruct (p c); [apply E|reflexivity].
  - apply IH1. intros m1 c1 s1. apply IH2. intros m2 c2 s2. apply E.
  - rewrite (IH1 s k k' E), (IH2 s k k' E). reflexivity.
  - destruct s as [|c s]; [reflexivity|]. destruct (p c); [|reflexivity].
    assert (S : forall (s : string) (j j' : string -> string -> option A),
               (forall m rest, j m rest = j' m rest) ->
               star p s j = star p s j').
    { clear. induction s as [|c s IH]; simpl; intros j j' E; [apply E|].
      destruct (p c); [|apply E].
      rewrite (IH (fun m rest => j (String c m) rest)
                  (fun m rest => j' (String c m) rest)) by (intros; apply E).
      now rewrite E. }
    apply S. intros m rest. apply E.
  - apply IH. intros m c s'. apply E.
Qed.

Lemma star_lower {A : Type} (p : ascii -> bool) :
  (forall c, p (lower_ascii c) = p c) ->
  forall (s : string) (k : string -> string -> option A),
    star p (lower s) k = star p s (fun m rest => k (lower m) (lower rest)).
Proof.
  intros B. induction s as [|c s IH]; simpl; intros k; [reflexivity|].
  rewrite B. destruct (p c); [|reflexivity].
  rewrite IH. reflexivity.
Qed.

(** A case-blind pattern reads a string and its lower-case form alike. *)
Lemma rmatch_lower {A : Type} (r : re) :
  case_blind r = true ->
  forall (s : string) (k : string -> caps -> string -> option A),
    rmatch r (lower s) k
    = rmatch r s (fun m c rest => k (lower m) (lower_caps c) (lower rest)).
Proof.
  induction r as [|p|r1 IH1 r2 IH2|r1 IH1 r2 IH2|p|n r IH]; simpl; intros B s k.
  - reflexivity.
  - destruct s as [|c s]; [reflexivity|]. simpl.
    rewrite (blind_class p c B). reflexivity.
  - apply andb_prop in B as [B1 B2]. rewrite (IH1 B1).
    apply rmatch_ext. intros m1 c1 s1. rewrite (IH2 B2).
    apply rmatch_ext. intros m2 c2 s2.
    now rewrite lower_append, lower_caps_app.
  - apply andb_prop in B as [B1 B2]. now rewrite (IH1 B1), (IH2 B2).
  - destruct s as [|c s]; [reflexivity|]. simpl.
    rewrite (blind_class p c B). destruct (p c); [|reflexivity].
    rewrite star_lower by (intros x; apply blind_class, B). reflexivity.
  - rewrite (IH B). reflexivity.
Qed.

Lemma pattern_unfold (c : ascii) (rest : string) :
  pattern (String c rest) =
  if Ascii.eqb c "%" then
    match rest with
    | EmptyString => None
    | String x rest' =>
        match directive x, pattern rest' with
        | Some r, Some r' => Some (Seq r r')
        | _, _ => None
        end
    end
  else
    match pattern rest with
    | Some r' =>
        if is_space c then
          match rest with
          | String c' _ => if is_space c' then Some r'
                           else Some (Seq (Plus is_space) r')
          | EmptyString => Some (Seq (Plus is_space) r')
          end
        else Some (Seq (chr c) r')
    | None => None
    end.
Proof.
  destruct (Ascii.eqb c "%") eqn:E.
  - apply Ascii.eqb_eq in E. subst c. destruct rest; reflexivity.
  - destruct c as [[] [] [] [] [] [] [] []]; try reflexivity; discriminate E.
Qed.

Lemma directive_case_blind (x : ascii) (r : re) :
  directive x = Some r -> case_blind r = true.
Proof.
  pose proof (for_all_ascii
                (fun x => match directive x with
                          | Some r => case_blind r | None => true end)
                ltac:(vm_compute; reflexivity) x) as H.
  cbv beta in H. intros E. now rewrite E in H.
Qed.

Lemma chr_case_blind (c : ascii) : case_blind (chr c) = true.
Proof.
  unfold chr, case_blind, cls_within. apply forallb_forall. intros x _.
  unfold lit_i. rewrite lower_ascii_idempotent. now rewrite eqb_reflx.
Qed.

Lemma space_case_blind : case_blind (Plus is_space) = true.
Proof. vm_compute. reflexivity. Qed.

Lemma pattern_case_blind (fmt : string) :
  (forall r, pattern fmt = Some r -> case_blind r = true) /\
  (forall c r, pattern (String c fmt) = Some r -> case_blind r = true).
Proof.
  pose proof space_case_blind as Bs. cbn [case_blind] in Bs.
  induction fmt as [|a fmt [IH1 IH2]].
  - split; [intros r [= <-]; reflexivity|].
    intros c r. rewrite pattern_unfold.
    destruct (Ascii.eqb c "%"); [discriminate|]. cbn [pattern].
    destruct (is_space c); intros [= <-]; cbn [case_blind].
    + now rewrite Bs.
    + now rewrite chr_case_blind.
  - split; [exact (IH2 a)|].
    intros c r. rewrite pattern_unfold.
    destruct (Ascii.eqb c "%").
    + destruct (directive a) as [ra|] eqn:D; [|discriminate].
      destruct (pattern fmt) as [r'|] eqn:P; [|discriminate].
      intros [= <-]. cbn [case_blind].
      now rewrite (directive_case_blind _ _ D), (IH1 _ eq_refl).
    + destruct (pattern (String a fmt)) as [r'|] eqn:P; [|discriminate].
      pose proof (IH2 a r' P) as B.
      destruct (is_space c).
      * destruct (is_space a); intros [= <-]; [assumption|].
        cbn [case_blind]. now rewrite Bs, B.
      * intros [= <-]. cbn [case_blind]. now rewrite chr_case_blind, B.
Qed.

Lemma is_space_lower (c : ascii) : is_space (lower_ascii c) = is_space c.
Proof. apply blind_class. vm_compute. reflexivity. Qed.

Lemma is_digit_lower (c : ascii) : is_digit (lower_ascii c) = is_digit c.
Proof. apply blind_class. vm_compute. reflexivity. Qed.

Lemma digit_lower (c : ascii) : is_digit c = true -> lower_ascii c = c.
Proof.
  intros D. apply Ascii.eqb_eq.
  exact (cls_within_spec is_digit (fun c => Ascii.eqb (lower_ascii c) c) c
           ltac:(vm_compute; reflexivity) D).
Qed.

Lemma sign_lower (c : ascii) :
  Ascii.eqb (lower_ascii c) "-" = Ascii.eqb c "-" /\
  Ascii.eqb (lower_ascii c) "+" = Ascii.eqb c "+".
Proof.
  split; apply eqb_prop;
    [apply (for_all_ascii (fun c => Bool.eqb (Ascii.eqb (lower_ascii c) "-")
                                            (Ascii.eqb c "-")))
    |apply (for_all_ascii (fun c => Bool.eqb (Ascii.eqb (lower_ascii c) "+")
                                            (Ascii.eqb c "+")))];
    vm_compute; reflexivity.
Qed.

Lemma lstrip_lower (s : string) : lstrip (lower s) = lower (lstrip s).
Proof.
  induction s as [|c s IH]; simpl; [reflexivity|].
  rewrite is_space_lower. destruct (is_space c); [assumption|reflexivity].
Qed.

Lemma rstrip_lower (s : string) : rstrip (lower s) = lower (rstrip s).
Proof.
  induction s as [|c s IH]; simpl; [reflexivity|].
  rewrite IH, is_space_lower. destruct (rstrip s); simpl.
  - destruct (is_space c); reflexivity.
  - reflexivity.
Qed.

Lemma all_digit_lower (s : string) :
  all is_digit (lower s) = all is_digit s.
Proof.
  induction s as [|c s IH]; simpl; [reflexivity|].
  now rewrite is_digit_lower, IH.
Qed.

Lemma digits_lower (s : string) : all is_digit s = true -> lower s = s.
Proof.
  induction s as [|c s IH]; simpl; [reflexivity|]. intros H.
  apply andb_prop in H as [Hc Hs]. now rewrite (digit_lower c Hc), IH.
Qed.

Lemma unsigned_int_lower (s : string) :
  unsigned_int (lower s) = unsigned_int s.
Proof.
  unfold unsigned_int. rewrite all_digit_lower.
  destruct s as [|c s]; [reflexivity|].
  change (lower (String c s)) with (String (lower_ascii c) (lower s)).
  change (String (lower_ascii c) (lower s)) with (lower (String c s)).
  destruct (all is_digit (String c s)) eqn:D; [|reflexivity].
  now rewrite (digits_lower _ D).
Qed.

Lemma py_int_unfold (s : string) :
  py_int s =
  match rstrip (lstrip s) with
  | EmptyString => unsigned_int EmptyString
  | String c s' =>
      if Ascii.eqb c "-" then option_map Z.opp (unsigned_int s')
      else if Ascii.eqb c "+" then unsigned_int s'
      else unsigned_int (String c s')
  end.
Proof.
  unfold py_int. destruct (rstrip (lstrip s)) as [|c s']; [reflexivity|].
  destruct (Ascii.eqb c "-") eqn:E1.
  { apply Ascii.eqb_eq in E1. now subst. }
  destruct (Ascii.eqb c "+") eqn:E2.
  { apply Ascii.eqb_eq in E2. now subst. }
  destruct c as [[] [] [] [] [] [] [] []]; try reflexivity; discriminate.
Qed.

Lemma py_int_lower (s : string) : py_int (lower s) = py_int s.
Proof.
  rewrite !py_int_unfold, lstrip_lower, rstrip_lower.
  destruct (rstrip (lstrip s)) as [|c s']; [reflexivity|].
  change (lower (String c s')) with (String (lower_ascii c) (lower s')).
  destruct (sign_lower c) as [-> ->].
  rewrite unsigned_int_lower.
  change (String (lower_ascii c) (lower s')) with (lower (String c s')).
  now rewrite unsigned_int_lower.
Qed.

Lemma star_map {A B : Type} (g : A -> B) (p : ascii -> bool) :
  forall (s : string) (k : string -> string -> option A),
    star p s (fun m rest => option_map g (k m rest))
    = option_map g (star p s k).
Proof.
  induction s as [|c s IH]; simpl; intros k; [reflexivity|].
  destruct (p c); [|reflexivity].
  rewrite (IH (fun m rest => k (String c m) rest)).
  now destruct (star p s (fun m rest => k (String c m) rest)).
Qed.

Lemma rmatch_map {A B : Type} (g : A -> B) (r : re) :
  forall (s : string) (k : string -> caps -> string -> option A),
    rmatch r s (fun m c rest => option_map g (k m c rest))
    = option_map g (rmatch r s k).
Proof.
  induction r as [|p|r1 IH1 r2 IH2|r1 IH1 r2 IH2|p|n r IH]; simpl; intros s k.
  - reflexivity.
  - destruct s as [|c s]; [reflexivity|]. now destruct (p c).
  - rewrite <- IH1. apply rmatch_ext. intros m1 c1 s1. apply IH2.
  - rewrite IH1, IH2. now destruct (rmatch r1 s k).
  - destruct s as [|c s]; [reflexivity|]. destruct (p c); [|reflexivity].
    apply (star_map g p s (fun m rest => k (String c m) [] rest)).
  - apply (IH s (fun m c s' => k m ((n, m) :: c) s')).
Qed.

Lemma re_match_lower (r : re) (s : string) :
  case_blind r = true ->
  re_match r (lower s)
  = option_map (fun x => match x with
                         | (m, c, rest) => (lower m, lower_caps c, lower rest)
                         end)
               (re_match r s).
Proof.
  intros B. unfold re_match. rewrite (rmatch_lower r B).
  apply (rmatch_map
           (fun x : string * caps * string =>
              match x with
              | (m, c, rest) => (lower m, lower_caps c, lower rest)
              end) r s (fun m c rest => Some (m, c, rest))).
Qed.

Lemma group_lower (name : string) (c : caps) :
  group name (lower_caps c) = option_map lower (group name c).
Proof.
  induction c as [|[n v] c IH]; simpl; [reflexivity|].
  now destruct (String.eqb n name).
Qed.

Lemma set_field_lower (found : caps) (st : fields) (key value : string) :
  set_field (lower_caps found) st key (lower value)
  = set_field found st key value.
Proof.
  unfold set_field. rewrite py_int_lower, group_lower.
  destruct (group "p" found) as [p|]; simpl; [|reflexivity].
  now rewrite lower_idempotent.
Qed.

Lemma set_fields_lower (found keys : caps) (st : fields) :
  set_fields (lower_caps found) (lower_caps keys) st
  = set_fields found keys st.
Proof.
  revert st. induction keys as [|[key value] keys IH]; simpl; intros st;
    [reflexivity|].
  rewrite set_field_lower. destruct (set_field found st key value); auto.
Qed.

Lemma strptime_lower (s fmt : string) : strptime (lower s) fmt = strptime s fmt.
Proof.
  unfold strptime. destruct (pattern fmt) as [r|] eqn:P; [|reflexivity].
  rewrite re_match_lower by (apply (proj1 (pattern_case_blind fmt)), P).
  destruct (re_match r s) as [[[m found] rest]|]; [|reflexivity].
  simpl. destruct rest; simpl; [|reflexivity].
  now rewrite set_fields_lower.
Qed.

Lemma convert_lower (s fmt : string) : convert (lower s) fmt = convert s fmt.
Proof. unfold convert. now rewrite strptime_lower. Qed.

Lemma try_formats_lower (s : string) (fmts : list string) :
  try_formats (lower s) fmts = try_formats s fmts.
Proof.
  induction fmts as [|f fmts IH]; simpl; [reflexivity|].
  now rewrite convert_lower, IH.
Qed.

(** X3. [parse_datetime] does not see the case of letters: two strings
    with the same lower-case form get the same result (value or error)
    after the same attempts. *)
Theorem parse_datetime_ignores_case (now : datetime) (rebase : bool)
        (s t : string) :
  lower s = lower t ->
  parse_datetime_log now (Some s) rebase
  = parse_datetime_log now (Some t) rebase.
Proof.
  assert (L : forall u, parse_datetime_log now (Some (lower u)) rebase
                        = parse_datetime_log now (Some u) rebase).
  { intros u. unfold parse_datetime_log.
    now rewrite lower_idempotent, convert_lower, !try_formats_lower. }
  intros E. rewrite <- (L s), <- (L t), E. reflexivity.
Qed.

Lemma parse_datetime_ignores_case_witness :
  parse_datetime_log sample_now (Some "11:05 PM") true
  = parse_datetime_log sample_now (Some "11:05 pm") true.
Proof.
  apply (parse_datetime_ignores_case sample_now true "11:05 PM" "11:05 pm").
  reflexivity.
Defined.

(** ** Reading back what the formatter writes *)

(** Case analysis on an integer known to lie in a short range. *)
Ltac enum_from v lo n :=
  lazymatch n with
  | O => exfalso; lia
  | S ?n' =>
      destruct (Z.eq_dec v lo) as [->|];
      [| let lo' := eval compute in (lo + 1) in enum_from v lo' n']
  end.

Ltac eval_two_digits :=
  match goal with
  | |- context [two_digits ?n] =>
      let t := eval vm_compute in (two_digits n) in
      change (two_digits n) with t in *
  end.

Section Forward.
Context {A : Type}.
Variable k : string -> caps -> string -> option A.
Variable x : A.
Variable rest : string.

Lemma rmatch_month (v : Z) :
  1 <= v <= 12 ->
  k (two_digits v) [("m", two_digits v)] rest = Some x ->
  rmatch (Grp "m" re_m) (two_digits v ++ rest) k = Some x.
Proof.
  intros R. enum_from v 1 12%nat; intros H; eval_two_digits;
    simpl; rewrite H; reflexivity.
Qed.

Lemma rmatch_day (v : Z) :
  1 <= v <= 31 ->
  k (two_digits v) [("d", two_digits v)] rest = Some x ->
  rmatch (Grp "d" re_d) (two_digits v ++ rest) k = Some x.
Proof.
  intros R. enum_from v 1 31%nat; intros H; eval_two_digits;
    simpl; rewrite H; reflexivity.
Qed.

Lemma rmatch_hour (v : Z) :
  0 <= v <= 23 ->
  k (two_digits v) [("H", two_digits v)] rest = Some x ->
  rmatch (Grp "H" re_H) (two_digits v ++ rest) k = Some x.
Proof.
  intros R. enum_from v 0 24%nat; intros H; eval_two_digits;
    simpl; rewrite H; reflexivity.
Qed.

Lemma rmatch_minute (v : Z) :
  0 <= v <= 59 ->
  k (two_digits v) [("M", two_digits v)] rest = Some x ->
  rmatch (Grp "M" re_M) (two_digits v ++ rest) k = Some x.
Proof.
  intros R. enum_from v 0 60%nat; intros H; eval_two_digits;
    simpl; rewrite H; reflexivity.
Qed.

End Forward.

Lemma digit_char_digit (n : Z) : 0 <= n <= 9 -> is_digit (digit_char n) = true.
Proof. intros R. enum_from n 0 10%nat; reflexivity. Qed.

Lemma rmatch_seq {A : Type} (r1 r2 : re) (s : string)
      (k : string -> caps -> string -> option A) :
  rmatch (Seq r1 r2) s k
  = rmatch r1 s (fun m1 c1 s1 =>
      rmatch r2 s1 (fun m2 c2 s2 => k (m1 ++ m2) (c1 ++ c2)%list s2)).
Proof. reflexivity. Qed.

Lemma rmatch_chr {A : Type} (c : ascii) (rest : string)
      (k : string -> caps -> string -> option A) :
  rmatch (chr c) (String c rest) k = k (String c "") [] rest.
Proof. simpl. unfold lit_i. now rewrite Ascii.eqb_refl. Qed.

Lemma rmatch_one_space {A : Type} (c : ascii) (rest : string)
      (k : string -> caps -> string -> option A) :
  is_digit c = true ->
  rmatch (Plus is_space) (String " " (String c rest)) k
  = k " " [] (String c rest).
Proof.
  intros D. simpl.
  destruct (is_space c) eqn:S; [destruct (digit_not_space c D S)|reflexivity].
Qed.

Lemma rmatch_year {A : Type} (a b c d : ascii) (rest : string)
      (k : string -> caps -> string -> option A) :
  is_digit a = true -> is_digit b = true ->
  is_digit c = true -> is_digit d = true ->
  rmatch (Grp "Y" re_Y) (String a (String b (String c (String d rest)))) k
  = k (String a (String b (String c (String d ""))))
      [("Y", String a (String b (String c (String d ""))))] rest.
Proof. intros Da Db Dc Dd. simpl. now rewrite Da, Db, Dc, Dd. Qed.

Lemma digit_val_digit_char (q : Z) : 0 <= q <= 9 -> digit_val (digit_char q) = q.
Proof. intros R. enum_from q 0 10%nat; reflexivity. Qed.

Lemma rstrip_digits (s : string) : all is_digit s = true -> rstrip s = s.
Proof.
  induction s as [|c s IH]; simpl; [reflexivity|]. intros H.
  apply andb_prop in H as [Hc Hs]. rewrite (IH Hs).
  destruct s; [|reflexivity].
  destruct (is_space c) eqn:S; [destruct (digit_not_space c Hc S)|reflexivity].
Qed.

Lemma digit_not_sign (c : ascii) :
  is_digit c = true -> Ascii.eqb c "-" = false /\ Ascii.eqb c "+" = false.
Proof.
  intros D. split; apply negb_true_iff.
  - exact (cls_within_spec is_digit (fun c => negb (Ascii.eqb c "-")) c
             ltac:(vm_compute; reflexivity) D).
  - exact (cls_within_spec is_digit (fun c => negb (Ascii.eqb c "+")) c
             ltac:(vm_compute; reflexivity) D).
Qed.

(** [int] of a string of digits is the number they write. *)
Lemma py_int_digits (c : ascii) (s : string) :
  all is_digit (String c s) = true ->
  py_int (String c s) = Some (digits_val (String c s) 0).
Proof.
  intros D. rewrite py_int_unfold.
  pose proof D as D'. simpl in D'. apply andb_prop in D' as [Dc _].
  assert (L : lstrip (String c s) = String c s).
  { simpl. destruct (is_space c) eqn:S;
      [destruct (digit_not_space c Dc S)|reflexivity]. }
  rewrite L, (rstrip_digits _ D).
  destruct (digit_not_sign c Dc) as [-> ->].
  unfold unsigned_int. now rewrite D.
Qed.

Lemma py_int_four_digits (v : Z) :
  1000 <= v <= 9999 -> py_int (four_digits v) = Some v.
Proof.
  intros R. unfold four_digits.
  assert (Q : 0 <= v / 1000 <= 9 /\ 0 <= v / 100 mod 10 <= 9 /\
              0 <= v / 10 mod 10 <= 9 /\ 0 <= v mod 10 <= 9)
    by (Z.div_mod_to_equations; lia).
  destruct Q as (Q1 & Q2 & Q3 & Q4).
  rewrite py_int_digits
    by (simpl; now rewrite !digit_char_digit by assumption).
  f_equal. cbn [digits_val].
  rewrite !digit_val_digit_char by assumption.
  Z.div_mod_to_equations. lia.
Qed.

Lemma py_int_two_digits (v : Z) : 0 <= v <= 99 -> py_int (two_digits v) = Some v.
Proof.
  intros R. unfold two_digits.
  assert (Q : 0 <= v / 10 <= 9 /\ 0 <= v mod 10 <= 9)
    by (Z.div_mod_to_equations; lia).
  destruct Q as (Q1 & Q2).
  rewrite py_int_digits
    by (simpl; now rewrite !digit_char_digit by assumption).
  f_equal. cbn [digits_val].
  rewrite !digit_val_digit_char by assumption.
  Z.div_mod_to_equations. lia.
Qed.

(** The pattern of the system format matches a formatted datetime in
    its first attempt, with the fields as groups. *)
Lemma system_format_matches (y m d H M : Z) :
  1000 <= y <= 9999 -> 1 <= m <= 12 -> 1 <= d <= 31 ->
  0 <= H <= 23 -> 0 <= M <= 59 ->
  exists r whole,
    pattern SYSTEM_FORMAT = Some r /\
    re_match r (four_digits y ++ "-" ++ two_digits m ++ "-" ++ two_digits d
                ++ " " ++ two_digits H ++ ":" ++ two_digits M)
    = Some (whole,
            [("Y", four_digits y); ("m", two_digits m); ("d", two_digits d);
             ("H", two_digits H); ("M", two_digits M)], "").
Proof.
  intros Ry Rm Rd RH RM. eexists. eexists. split; [apply pattern_system|].
  unfold re_match.
  assert (Dy : forall q, 0 <= q <= 9 -> is_digit (digit_char q) = true)
    by apply digit_char_digit.
  unfold four_digits at 1. cbn [append].
  rewrite rmatch_seq, rmatch_year by (apply Dy; Z.div_mod_to_equations; lia).
  rewrite rmatch_seq, rmatch_chr. rewrite rmatch_seq.
  apply rmatch_month; [assumption|].
  cbn [append]. rewrite rmatch_seq, rmatch_chr. rewrite rmatch_seq.
  apply rmatch_day; [assumption|].
  cbn [append]. rewrite rmatch_seq.
  unfold two_digits at 1. cbn [append].
  rewrite rmatch_one_space by (apply Dy; Z.div_mod_to_equations; lia).
  rewrite rmatch_seq.
  change (String (digit_char (H / 10)) (String (digit_char (H mod 10))
            (":" ++ two_digits M)))
    with (two_digits H ++ (":" ++ two_digits M)).
  apply rmatch_hour; [assumption|].
  cbn [append]. rewrite rmatch_seq, rmatch_chr. rewrite rmatch_seq.
  rewrite <- (append_nil_r (two_digits M)) at 1.
  apply rmatch_minute; [assumption|].
  cbn [rmatch]. unfold four_digits, two_digits. cbn [append app].
  reflexivity.
Qed.

Lemma weekday_range (y m d : Z) : 0 <= weekday y m d <= 6.
Proof. unfold weekday. pose proof (Z.mod_pos_bound (toordinal y m d + 6) 7). lia. Qed.

Lemma valid_datetime_ranges (dt : datetime) :
  valid_datetime dt = true ->
  1 <= year dt <= 9999 /\ 1 <= month dt <= 12 /\
  1 <= day dt <= days_in_month (year dt) (month dt) /\
  0 <= hour dt <= 23 /\ 0 <= minute dt <= 59 /\ 0 <= second dt <= 59 /\
  0 <= microsecond dt <= 999999.
Proof.
  unfold valid_datetime, valid_date, valid_time. intros V.
  repeat (apply andb_prop in V; destruct V as [V ?]).
  repeat match goal with
         | H : (_ <=? _) = true |- _ => apply Z.leb_le in H
         end.
  lia.
Qed.

Lemma convert_formatted (dt : datetime) (rebase : bool) :
  valid_datetime dt = true -> 1000 <= year dt ->
  convert (format_system_datetime dt rebase) SYSTEM_FORMAT
  = Some (mk_datetime (year dt) (month dt) (day dt) (hour dt) (minute dt) 0 0).
Proof.
  intros V Y. rewrite format_system_datetime_padded by assumption.
  pose proof (valid_datetime_ranges dt V) as (Ry & Rm & Rd & RH & RM & _).
  pose proof (days_in_month_le (year dt) (month dt)) as L.
  destruct (system_format_matches (year dt) (month dt) (day dt) (hour dt)
              (minute dt)) as (r & whole & P & E); try lia.
  unfold convert, strptime. rewrite P, E.
  rewrite (set_fields_system _ _ _ _ _ (year dt) (month dt) (day dt)
             (hour dt) (minute dt))
    by (first [apply py_int_four_digits | apply py_int_two_digits]; lia).
  assert (V1 : valid_date (year dt) (month dt) (day dt) = true).
  { unfold valid_datetime in V. now apply andb_prop in V as [V _]. }
  assert (V2 : valid_date (year dt) 1 1 = true).
  { unfold valid_date.
    repeat (apply andb_true_intro; split); try (apply Z.leb_le; lia).
    reflexivity. }
  rewrite V1, V2. cbn [andb tm_year tm_mon tm_mday tm_hour tm_min tm_sec tm_wday].
  unfold datetime_new. rewrite V1.
  pose proof (weekday_range (year dt) (month dt) (day dt)) as W.
  assert (V3 : valid_time (hour dt) (minute dt) 0
                 (weekday (year dt) (month dt) (day dt)) = true).
  { unfold valid_time.
    repeat (apply andb_true_intro; split); apply Z.leb_le; lia. }
  rewrite V3. reflexivity.
Qed.

(** X1. [parse_datetime] reads back what [format_system_datetime] writes:
    for a valid datetime from year 1000 on, parsing its formatted form
    gives the same year, month, day, hour and minute, with second and
    microsecond 0. *)
Theorem format_then_parse (now dt : datetime) (rebase rebase' : bool) :
  valid_datetime dt = true -> 1000 <= year dt ->
  parse_datetime now (Some (format_system_datetime dt rebase)) rebase'
  = Ok (mk_datetime (year dt) (month dt) (day dt) (hour dt) (minute dt) 0 0).
Proof.
  intros V Y. rewrite parse_datetime_stages.
  rewrite convert_formatted by assumption.
  destruct (is_now (format_system_datetime dt rebase)) eqn:N; [|reflexivity].
  apply is_now_length in N.
  rewrite format_system_datetime_padded in N by assumption. discriminate.
Qed.

Lemma format_then_parse_witness :
  parse_datetime sample_now
    (Some (format_system_datetime (mk_datetime 2020 2 29 23 59 58 999999) true))
    false
  = Ok (mk_datetime 2020 2 29 23 59 0 0).
Proof.
  apply (format_then_parse sample_now (mk_datetime 2020 2 29 23 59 58 999999)).
  - reflexivity.
  - simpl. lia.
Defined.

(** ** US zip codes *)

Lemma digits_n_4_inv (s : string) : digits_n 4 s = true ->
  exists a b c d, s = String a (String b (String c (String d "")))
    /\ is_digit a = true /\ is_digit b = true /\ is_digit c = true
    /\ is_digit d = true.
Proof.
  unfold digits_n. intros H. apply andb_prop in H as [L D].
  do 4 (destruct s as [|? s]; [discriminate|]).
  destruct s; [|discriminate]. simpl in D.
  repeat (apply andb_prop in D; let X := fresh in destruct D as [X D]).
  eauto 10.
Qed.

Lemma zip_five_digits (a b c d e : ascii) (rest : string) {A : Type}
      (k : string -> caps -> string -> option A) :
  all is_digit (String a (String b (String c (String d (String e ""))))) = true ->
  rmatch d5 (String a (String b (String c (String d (String e rest))))) k
  = k (String a (String b (String c (String d (String e ""))))) [] rest.
Proof.
  simpl. intros H.
  repeat (apply andb_prop in H; let X := fresh in destruct H as [X H]).
  unfold d5, d4, d3. simpl.
  repeat match goal with E : is_digit _ = true |- _ => rewrite E; clear E end.
  reflexivity.
Qed.

Lemma zip_code_re_matches (m : string) (c : caps) :
  matches zip_code_re m c -> zip_shape m = true.
Proof.
  unfold zip_code_re, d5, d4, d3. intros H. invert_matches;
    repeat match goal with
           | H : lit _ _ = true |- _ =>
               unfold lit in H; apply Ascii.eqb_eq in H; subst
           end;
    simpl; unfold digits_n; simpl;
    repeat match goal with H : is_digit _ = true |- _ => rewrite H; clear H end;
    reflexivity.
Qed.

Lemma zip_shape_accepted (v rest : string) :
  zip_shape v = true -> at_end rest = true ->
  exists g, re_match_dollar zip_code_re (v ++ rest) = Some g.
Proof.
  unfold zip_shape. intros H E.
  do 5 (destruct v as [|? v]; [discriminate|]).
  apply andb_prop in H as [D H].
  unfold re_match_dollar, zip_code_re. cbn [rmatch append].
  rewrite zip_five_digits by assumption.
  destruct v as [|dash four].
  - simpl. destruct rest as [|x [|y rest]]; simpl in *; try discriminate.
    + eauto.
    + apply Ascii.eqb_eq in E. subst x. simpl. eauto.
  - apply andb_prop in H as [Hd H4]. apply Ascii.eqb_eq in Hd. subst dash.
    apply digits_n_4_inv in H4.
    destruct H4 as (f & g & h & i & -> & Df & Dg & Dh & Di).
    unfold d4, d3. simpl. rewrite Df, Dg, Dh, Di. rewrite E. eauto.
Qed.

(** X5. The zip code validator accepts a value exactly when it is five
    digits, or five digits, a dash and four digits, or one of these
    followed by a single newline (which [$] lets through); otherwise it
    raises [ValidationError] with the message given, or the default one. *)
Theorem zip_code_accepted_iff {Form : Type} (message : option string)
        (form : Form) (value : string) :
  (is_valid_us_zip_code message form value = Ok tt <->
   zip_shape value = true \/
   exists v, value = v ++ newline /\ zip_shape v = true) /\
  (is_valid_us_zip_code message form value = Ok tt \/
   is_valid_us_zip_code message form value
   = Raise (ValidationError
              (match message with Some m => m | None => zip_code_message end))).
Proof.
  unfold is_valid_us_zip_code.
  split; [|destruct (re_match_dollar _ _); [left|right]; reflexivity].
  split.
  - destruct (re_match_dollar zip_code_re value) as [[m c]|] eqn:E; [|discriminate].
    intros _. apply re_match_dollar_sound in E.
    destruct E as (rest & -> & Hend & M). apply zip_code_re_matches in M.
    destruct rest as [|x [|y rest]]; try discriminate.
    + left. now rewrite append_nil_r.
    + right. simpl in Hend. apply Ascii.eqb_eq in Hend. subst x. eauto.
  - intros [H | (v & -> & H)].
    + destruct (zip_shape_accepted value "" H eq_refl) as [g Hg].
      rewrite append_nil_r in Hg. now rewrite Hg.
    + destruct (zip_shape_accepted v newline H eq_refl) as [g Hg].
      now rewrite Hg.
Qed.

(** ** US phone numbers, case by case *)

Lemma digits_n_10_inv (s : string) : digits_n 10 s = true ->
  exists d0 d1 d2 d3 d4 d5 d6 d7 d8 d9,
    s = String d0 (String d1 (String d2 (String d3 (String d4
          (String d5 (String d6 (String d7 (String d8 (String d9 "")))))))))
    /\ is_digit d0 = true /\ is_digit d1 = true /\ is_digit d2 = true
    /\ is_digit d3 = true /\ is_digit d4 = true /\ is_digit d5 = true
    /\ is_digit d6 = true /\ is_digit d7 = true /\ is_digit d8 = true
    /\ is_digit d9 = true.
Proof.
  unfold digits_n. intros H. apply andb_prop in H as [L D].
  do 10 (destruct s as [|? s]; [discriminate|]).
  destruct s; [|discriminate]. simpl in D.
  repeat (apply andb_prop in D; let X := fresh in destruct D as [X D]).
  do 10 eexists. repeat split; eauto.
Qed.

(** Ten digits, with or without a "1" before them, are matched with the
    ten digits in the groups. *)
Lemma phone_digits_re_accepts (one : bool)
      (d0 d1 d2 d3 d4 d5 d6 d7 d8 d9 : ascii) :
  is_digit d0 = true -> is_digit d1 = true -> is_digit d2 = true ->
  is_digit d3 = true -> is_digit d4 = true -> is_digit d5 = true ->
  is_digit d6 = true -> is_digit d7 = true -> is_digit d8 = true ->
  is_digit d9 = true ->
  exists m,
    re_match_dollar phone_digits_re
      ((if one then "1" else "") ++
       String d0 (String d1 (String d2 (String d3 (String d4
         (String d5 (String d6 (String d7 (String d8 (String d9 ""))))))))))
    = Some (m, [("1", String d0 (String d1 (String d2 "")));
                ("2", String d3 (String d4 (String d5 "")));
                ("3", String d6 (String d7 (String d8 (String d9 ""))))]).
Proof.
  intros D0 D1 D2 D3 D4 D5 D6 D7 D8 D9.
  unfold re_match_dollar, phone_digits_re, US.d4, US.d3.
  destruct one; simpl.
  - rewrite D0, D1, D2, D3, D4, D5, D6, D7, D8, D9. simpl. eauto.
  - destruct (lit "1" d0); simpl;
      rewrite ?D0, D1, D2, D3, D4, D5, D6, D7, D8, D9; simpl;
      rewrite ?D0; simpl; eauto.
Qed.

Lemma digits_n_spec (n : nat) (s : string) :
  digits_n n s = true <-> String.length s = n /\ all is_digit s = true.
Proof.
  unfold digits_n. rewrite andb_true_iff, Nat.eqb_eq. reflexivity.
Qed.

Lemma phone_no_match (stripped : string) :
  phone_ten_digits stripped = None ->
  (forall m rest, stripped = m ++ rest -> at_end rest = true -> rest = "") ->
  re_match_dollar phone_digits_re stripped = None.
Proof.
  intros N Hend.
  destruct (re_match_dollar phone_digits_re stripped) as [[m c]|] eqn:E;
    [exfalso|reflexivity].
  apply re_match_dollar_sound in E. destruct E as (rest & Hs & He & M).
  rewrite (Hend _ _ Hs He), append_nil_r in Hs. subst m.
  apply phone_digits_re_matches in M.
  destruct M as (d0 & d1 & d2 & d3 & d4 & d5 & d6 & d7 & d8 & d9 & D & _ & Hm).
  simpl in D.
  destruct Hm as [-> | ->]; unfold phone_ten_digits, digits_n in N;
    cbn [String.length Nat.eqb all andb] in N; rewrite D in N.
  - destruct (Ascii.eqb d0 "1" && _); discriminate.
  - rewrite Ascii.eqb_refl in N. discriminate.
Qed.

Lemma phone_ten_digits_some (stripped ten : string) :
  phone_ten_digits stripped = Some ten ->
  digits_n 10 ten = true /\ (stripped = ten \/ stripped = String "1" ten).
Proof.
  unfold phone_ten_digits. destruct stripped as [|c rest]; [discriminate|].
  destruct (Ascii.eqb c "1" && digits_n 10 rest) eqn:E1.
  - intros [= <-]. apply andb_prop in E1 as [Hc Hr].
    apply Ascii.eqb_eq in Hc. subst c. auto.
  - destruct (digits_n 10 (String c rest)) eqn:E2; [|discriminate].
    intros [= <-]. auto.
Qed.

(** [USPhoneNumberField.convert] without the regular expressions. *)
Lemma phone_convert_eq (TextField_convert : string -> result string)
      (required : bool) (value : string) :
  USPhoneNumberField_convert TextField_convert required value =
  match TextField_convert value with
  | Raise e => Raise e
  | Ok text =>
      if String.eqb text "" && negb required then Ok text
      else match phone_ten_digits (phone_digits_strip text) with
           | Some ten =>
               if starts_with_any "01" ten
               then Raise (ValidationError bad_area_code)
               else Ok (dashed ten)
           | None => Raise (ValidationError invalid_phone)
           end
  end.
Proof.
  unfold USPhoneNumberField_convert.
  destruct (TextField_convert value) as [text|e]; [|reflexivity].
  destruct (String.eqb text "" && negb required); [reflexivity|].
  destruct (phone_ten_digits (phone_digits_strip text)) as [ten|] eqn:P.
  - destruct (phone_ten_digits_some _ _ P) as [T Hs].
    apply digits_n_10_inv in T.
    destruct T as (d0 & d1 & d2 & d3 & d4 & d5 & d6 & d7 & d8 & d9 & -> &
                   D0 & D1 & D2 & D3 & D4 & D5 & D6 & D7 & D8 & D9).
    destruct Hs as [-> | ->].
    + destruct (phone_digits_re_accepts false d0 d1 d2 d3 d4 d5 d6 d7 d8 d9)
        as [m Hm]; auto.
      simpl in Hm. rewrite Hm. reflexivity.
    + destruct (phone_digits_re_accepts true d0 d1 d2 d3 d4 d5 d6 d7 d8 d9)
        as [m Hm]; auto.
      simpl in Hm. rewrite Hm. reflexivity.
  - rewrite phone_no_match; auto.
    intros m rest. apply phone_digits_strip_end.
Qed.

Lemma digit_not_stripped (c : ascii) :
  is_digit c = true -> phone_strip_class c = false.
Proof.
  intros D. apply negb_true_iff.
  exact (cls_within_spec is_digit (fun c => negb (phone_strip_class c)) c
           ltac:(vm_compute; reflexivity) D).
Qed.

Lemma strip_dashed (ten : string) :
  digits_n 10 ten = true -> phone_digits_strip (dashed ten) = ten.
Proof.
  intros D. apply digits_n_10_inv in D.
  destruct D as (d0 & d1 & d2 & d3 & d4 & d5 & d6 & d7 & d8 & d9 & -> &
                 D0 & D1 & D2 & D3 & D4 & D5 & D6 & D7 & D8 & D9).
  simpl. rewrite !digit_not_stripped by assumption. reflexivity.
Qed.

Lemma phone_ten_digits_fixed (ten : string) :
  digits_n 10 ten = true -> starts_with_any "01" ten = false ->
  phone_ten_digits ten = Some ten.
Proof.
  intros D S. unfold phone_ten_digits.
  destruct ten as [|c rest]; [discriminate|].
  simpl in S. apply orb_false_elim in S as [_ S].
  apply orb_false_elim in S as [S _]. rewrite S, D. reflexivity.
Qed.

Lemma dashed_not_empty (ten : string) :
  digits_n 10 ten = true -> String.eqb (dashed ten) "" = false.
Proof.
  intros D. apply digits_n_10_inv in D.
  destruct D as (d0 & d1 & d2 & d3 & d4 & d5 & d6 & d7 & d8 & d9 & -> & _).
  reflexivity.
Qed.

(** X7. A value that [USPhoneNumberField.convert] returned is returned
    unchanged when it is converted again (provided [TextField.convert]
    hands it over as it is). *)
Theorem USPhoneNumberField_convert_idempotent
        (TextField_convert : string -> result string) (required : bool)
        (value out : string) :
  USPhoneNumberField_convert TextField_convert required value = Ok out ->
  TextField_convert out = Ok out ->
  USPhoneNumberField_convert TextField_convert required out = Ok out.
Proof.
  rewrite !phone_convert_eq. intros H T. rewrite T.
  destruct (TextField_convert value) as [text|e]; [|discriminate].
  destruct (String.eqb text "" && negb required) eqn:C.
  { injection H as <-. now rewrite C. }
  destruct (phone_ten_digits (phone_digits_strip text)) as [ten|] eqn:P;
    [|discriminate].
  destruct (starts_with_any "01" ten) eqn:S; [discriminate|].
  injection H as <-.
  destruct (phone_ten_digits_some _ _ P) as [D _].
  rewrite dashed_not_empty, strip_dashed, phone_ten_digits_fixed, S by assumption.
  reflexivity.
Qed.

(** X6. What [USPhoneNumberField.convert] does, case by case: an error of
    [TextField.convert] is passed on; an empty text is returned as it is
    when the field is not required; otherwise the separators are removed,
    and ten digits, or a "1" and ten digits, give ddd-ddd-dddd, unless the
    first of the ten digits is 0 or 1, which is the area-code error;
    anything else is the format error. *)
Theorem USPhoneNumberField_convert_cases
        (TextField_convert : string -> result string) (required : bool)
        (value : string) :
  (forall e, TextField_convert value = Raise e ->
     USPhoneNumberField_convert TextField_convert required value = Raise e) /\
  (TextField_convert value = Ok "" -> required = false ->
     USPhoneNumberField_convert TextField_convert required value = Ok "") /\
  (forall text, TextField_convert value = Ok text ->
     text <> "" \/ required = true ->
     USPhoneNumberField_convert TextField_convert required value =
     match phone_ten_digits (phone_digits_strip text) with
     | Some ten =>
         if starts_with_any "01" ten
         then Raise (ValidationError bad_area_code)
         else Ok (dashed ten)
     | None => Raise (ValidationError invalid_phone)
     end).
Proof.
  rewrite phone_convert_eq. repeat split.
  - now intros e ->.
  - now intros -> ->.
  - intros text -> H.
    destruct (String.eqb text "" && negb required) eqn:C; [|reflexivity].
    apply andb_prop in C as [C1 C2]. apply String.eqb_eq in C1.
    apply negb_true_iff in C2. destruct H; congruence.
Qed.

Lemma USPhoneNumberField_convert_cases_witness :
  USPhoneNumberField_convert Ok true "1555555555"
  = Raise (ValidationError bad_area_code).
Proof.
  apply (proj2 (proj2 (USPhoneNumberField_convert_cases Ok true "1555555555"))
           "1555555555").
  - reflexivity.
  - right. reflexivity.
Defined.

Lemma USPhoneNumberField_convert_idempotent_witness :
  USPhoneNumberField_convert Ok false "555-867-5309" = Ok "555-867-5309".
Proof.
  apply (USPhoneNumberField_convert_idempotent Ok false "(555) 867.5309").
  - reflexivity.
  - reflexivity.
Defined.

(** ** US state codes *)

Lemma ascii_upper_char_idempotent (c : ascii) :
  ascii_upper_char (ascii_upper_char c) = ascii_upper_char c.
Proof.
  apply Ascii.eqb_eq.
  apply (for_all_ascii
           (fun c => Ascii.eqb (ascii_upper_char (ascii_upper_char c))
                               (ascii_upper_char c))).
  vm_compute. reflexivity.
Qed.

Lemma ascii_upper_idempotent (s : string) :
  ascii_upper (ascii_upper s) = ascii_upper s.
Proof.
  induction s as [|c s IH]; simpl; [reflexivity|].
  now rewrite ascii_upper_char_idempotent, IH.
Qed.

Lemma ascii_upper_char_is_ascii (c : ascii) :
  is_ascii_char c = true -> is_ascii_char (ascii_upper_char c) = true.
Proof.
  apply (cls_within_spec is_ascii_char
           (fun c => is_ascii_char (ascii_upper_char c)) c).
  vm_compute. reflexivity.
Qed.

Lemma ascii_upper_is_ascii (s : string) :
  is_ascii s = true -> is_ascii (ascii_upper s) = true.
Proof.
  unfold is_ascii. induction s as [|c s IH]; simpl; [reflexivity|].
  intros H. apply andb_prop in H as [Hc Hs].
  now rewrite (ascii_upper_char_is_ascii c Hc), IH.
Qed.

(** X8. On ASCII text, where the [upper] method of the text is the
    upper-casing of a-z: [USStateField.convert] accepts the text exactly
    when its upper-case form is one of the valid state codes and returns
    that form; converting the returned code again returns it unchanged
    (provided [TextField.convert] hands it over as it is); the only error
    of the field's own is the invalid-state one. *)
Theorem USStateField_convert_normalised
        (TextField_convert : string -> result string)
        (VALID_STATE_CODES : list string) (upper : string -> string)
        (value text : string) :
  (forall s, is_ascii s = true -> upper s = ascii_upper s) ->
  TextField_convert value = Ok text -> is_ascii text = true ->
  (forall out,
      USStateField_convert TextField_convert VALID_STATE_CODES upper value
      = Ok out ->
      out = ascii_upper text /\ In out VALID_STATE_CODES /\
      (TextField_convert out = Ok out ->
       USStateField_convert TextField_convert VALID_STATE_CODES upper out
       = Ok out)) /\
  (In (ascii_upper text) VALID_STATE_CODES ->
   USStateField_convert TextField_convert VALID_STATE_CODES upper value
   = Ok (ascii_upper text)) /\
  (~ In (ascii_upper text) VALID_STATE_CODES ->
   USStateField_convert TextField_convert VALID_STATE_CODES upper value
   = Raise (ValidationError invalid_state)).
Proof.
  intros U T A. unfold USStateField_convert. rewrite T, (U text A).
  assert (M : existsb (String.eqb (ascii_upper text)) VALID_STATE_CODES = true
              <-> In (ascii_upper text) VALID_STATE_CODES).
  { rewrite existsb_exists. split.
    - intros (x & Hx & E). apply String.eqb_eq in E. now subst x.
    - intros H. exists (ascii_upper text).
      split; [assumption|apply String.eqb_refl]. }
  destruct (existsb (String.eqb (ascii_upper text)) VALID_STATE_CODES) eqn:E;
    cbn [negb].
  - pose proof (proj1 M eq_refl) as Hin. split; [|split].
    + intros out [= <-]. split; [reflexivity|]. split; [assumption|].
      intros T'.
      rewrite T', (U _ (ascii_upper_is_ascii text A)), ascii_upper_idempotent, E.
      reflexivity.
    + reflexivity.
    + contradiction.
  - split; [|split].
    + discriminate.
    + intros Hin. apply M in Hin. discriminate.
    + reflexivity.
Qed.

Lemma USStateField_convert_normalised_witness :
  USStateField_convert Ok ["CA"; "NY"; "PR"] ascii_upper "ny" = Ok "NY".
Proof.
  apply (proj1 (proj2 (USStateField_convert_normalised Ok ["CA"; "NY"; "PR"]
                         ascii_upper "ny" "ny" (fun s _ => eq_refl)
                         eq_refl eq_refl))).
  simpl. auto.
Defined.

(** ** The twelve-hour clock *)

(** A string that a time-only format converts gets today's date. *)
Lemma time_only_result (now : datetime) (rebase : bool) (s fmt : string)
      (val : datetime) :
  In fmt TIME_FORMATS -> convert s fmt = Some val ->
  parse_datetime now (Some s) rebase = Ok (on_today now val).
Proof.
  intros Hin H. rewrite parse_datetime_stages.
  rewrite (time_only_not_now _ _ _ Hin H), (time_only_not_system _ _ _ Hin H).
  destruct (try_formats_unique s fmt val TIME_FORMATS) as [tried ->]; auto.
  intros g w Hg Cg. eapply time_only_unique; eauto.
Qed.

(** X9. The twelve-hour clock: "h:mm am" and "h:mm pm", the hour from 1
    to 12 with or without a leading zero, are today's date at hour
    [h mod 12], plus 12 for pm; so 12 am is hour 0 and 12 pm is hour 12. *)
Theorem parse_datetime_twelve_hour_clock (now : datetime) (rebase : bool)
        (h m : Z) (padded pm : bool) :
  1 <= h <= 12 -> 0 <= m <= 59 ->
  parse_datetime now
    (Some (hour_text padded h ++ ":" ++ two_digits m
           ++ (if pm then " pm" else " am"))) rebase
  = Ok (mk_datetime (year now) (month now) (day now)
          (h mod 12 + (if pm then 12 else 0)) m 0 0).
Proof.
  intros Rh Rm.
  pose (txt := fun (padded pm : bool) (h m : Z) =>
                 hour_text padded h ++ ":" ++ two_digits m
                 ++ (if pm then " pm" else " am")).
  pose (check := fun (padded pm : bool) (h m : Z) =>
                   match convert (txt padded pm h m) "%I:%M %p" with
                   | Some dt => (hour dt =? h mod 12 + (if pm then 12 else 0))
                                && (minute dt =? m) && (second dt =? 0)
                   | None => false
                   end).
  assert (X : check padded pm h m = true).
  { apply (holds_on_spec (fun m => check padded pm h m) 0 60); [|lia].
    apply (holds_on_spec
             (fun h => holds_on (fun m => check padded pm h m) 0 60) 1 12);
      [|lia].
    destruct padded, pm; vm_compute; reflexivity. }
  unfold check, txt in X.
  destruct (convert _ "%I:%M %p") as [dt|] eqn:C; [|discriminate].
  rewrite (time_only_result now rebase _ "%I:%M %p" dt); [|simpl; auto|exact C].
  apply andb_prop in X as [X S]. apply andb_prop in X as [H M].
  apply Z.eqb_eq in H, M, S. unfold on_today. now rewrite H, M, S.
Qed.

Lemma parse_datetime_twelve_hour_clock_witness :
  parse_datetime sample_now (Some "12:30 am") true
  = Ok (mk_datetime 2024 5 6 0 30 0 0).
Proof.
  apply (parse_datetime_twelve_hour_clock sample_now true 12 30 true false);
    lia.
Defined.

(** ** Dates written with slashes *)

Lemma digit_not_colon (c : ascii) : is_digit c = true -> lit_i ":" c = false.
Proof.
  intros D. apply negb_true_iff.
  exact (cls_within_spec is_digit (fun c => negb (lit_i ":" c)) c
           ltac:(vm_compute; reflexivity) D).
Qed.

Ltac split_ifs :=
  repeat match goal with
         | |- context [if ?b then _ else _] => destruct b
         end.

(** The system format does not take a string whose third character is a
    slash. *)
Lemma year_fails_on_slash {A : Type} (c1 c2 : ascii) (rest : string)
      (k : string -> caps -> string -> option A) :
  rmatch (Grp "Y" re_Y) (String c1 (String c2 (String "/" rest))) k = None.
Proof. simpl. split_ifs; reflexivity. Qed.

(** An hour and a colon do not start a string whose first characters are
    two digits and a slash. *)
Lemma hour_colon_fails {A : Type} (g : string) (re_h r2 : re) (c1 c2 : ascii)
      (rest : string) (k : string -> caps -> string -> option A) :
  re_h = re_H \/ re_h = re_m ->
  is_digit c2 = true ->
  rmatch (Seq (Grp g re_h) (Seq (chr ":") r2))
         (String c1 (String c2 (String "/" rest))) k = None.
Proof.
  intros [-> | ->] D; simpl; rewrite (digit_not_colon c2 D);
    split_ifs; reflexivity.
Qed.

Lemma starts_with_hour (f : string) :
  In f TIME_FORMATS \/
  (exists d, In d DATE_FORMATS /\
             exists t, In t TIME_FORMATS /\ f = t ++ " " ++ d) ->
  exists g re_h r2,
    pattern f = Some (Seq (Grp g re_h) (Seq (chr ":") r2)) /\
    (re_h = re_H \/ re_h = re_m).
Proof.
  intros [H | (d & Hd & t & Ht & ->)].
  - simpl in H. decompose [or] H; subst; try contradiction;
      do 3 eexists; (split; [reflexivity|]); auto.
  - simpl in Ht. decompose [or] Ht; subst; try contradiction;
      simpl in Hd; decompose [or] Hd; subst; try contradiction;
      do 3 eexists; (split; [reflexivity|]); auto.
Qed.

Lemma hour_first_format_fails (f : string) (c1 c2 : ascii) (rest : string) :
  In f TIME_FORMATS \/
  (exists d, In d DATE_FORMATS /\
             exists t, In t TIME_FORMATS /\ f = t ++ " " ++ d) ->
  is_digit c2 = true ->
  convert (String c1 (String c2 (String "/" rest))) f = None.
Proof.
  intros Hf D. destruct (starts_with_hour f Hf) as (g & re_h & r2 & P & Hh).
  unfold convert, strptime. rewrite P. unfold re_match.
  now rewrite (hour_colon_fails g re_h r2 c1 c2 rest _ Hh D).
Qed.

Lemma set_fields_mdY (a b Y H M : string) (va vb vY vH vM : Z) :
  py_int a = Some va -> py_int b = Some vb -> py_int Y = Some vY ->
  py_int H = Some vH -> py_int M = Some vM ->
  set_fields [("m", a); ("d", b); ("Y", Y); ("H", H); ("M", M)]
             [("m", a); ("d", b); ("Y", Y); ("H", H); ("M", M)] fields0
  = Some (mk_fields vY va vb vH vM 0) /\
  set_fields [("d", a); ("m", b); ("Y", Y); ("H", H); ("M", M)]
             [("d", a); ("m", b); ("Y", Y); ("H", H); ("M", M)] fields0
  = Some (mk_fields vY vb va vH vM 0).
Proof.
  intros Ha Hb HY HH HM. unfold set_fields, set_field, fields0.
  split; simpl; rewrite Ha; simpl; rewrite Hb; simpl; rewrite HY; simpl;
    rewrite HH; simpl; rewrite HM; reflexivity.
Qed.

(** The rest of a slash date with a time, from the year on. *)
Lemma rmatch_year_time {A : Type} (y H M : Z) (x : A)
      (k : string -> caps -> string -> option A) :
  1000 <= y <= 9999 -> 0 <= H <= 23 -> 0 <= M <= 59 ->
  k (four_digits y ++ " " ++ two_digits H ++ ":" ++ two_digits M)
    [("Y", four_digits y); ("H", two_digits H); ("M", two_digits M)] ""
  = Some x ->
  rmatch (Seq (Grp "Y" re_Y) (Seq (Plus is_space) (Seq (Grp "H" re_H)
            (Seq (chr ":") (Seq (Grp "M" re_M) Eps)))))
         (four_digits y ++ " " ++ two_digits H ++ ":" ++ two_digits M) k
  = Some x.
Proof.
  intros Ry RH RM K.
  assert (Dy : forall q, 0 <= q <= 9 -> is_digit (digit_char q) = true)
    by apply digit_char_digit.
  unfold four_digits at 1. cbn [append].
  rewrite rmatch_seq, rmatch_year by (apply Dy; Z.div_mod_to_equations; lia).
  rewrite rmatch_seq. unfold two_digits at 1. cbn [append].
  rewrite rmatch_one_space by (apply Dy; Z.div_mod_to_equations; lia).
  rewrite rmatch_seq.
  change (String (digit_char (H / 10)) (String (digit_char (H mod 10))
            (":" ++ two_digits M)))
    with (two_digits H ++ (":" ++ two_digits M)).
  apply rmatch_hour; [assumption|].
  cbn [append]. rewrite rmatch_seq, rmatch_chr. rewrite rmatch_seq.
  rewrite <- (append_nil_r (two_digits M)) at 1.
  apply rmatch_minute; [assumption|].
  cbn [rmatch]. rewrite <- K. unfold four_digits, two_digits. cbn [append app].
  reflexivity.
Qed.

Lemma pattern_mdY :
  pattern "%m/%d/%Y %H:%M"
  = Some (Seq (Grp "m" re_m) (Seq (chr "/") (Seq (Grp "d" re_d) (Seq (chr "/")
      (Seq (Grp "Y" re_Y) (Seq (Plus is_space) (Seq (Grp "H" re_H)
      (Seq (chr ":") (Seq (Grp "M" re_M) Eps))))))))) /\
  pattern "%d/%m/%Y %H:%M"
  = Some (Seq (Grp "d" re_d) (Seq (chr "/") (Seq (Grp "m" re_m) (Seq (chr "/")
      (Seq (Grp "Y" re_Y) (Seq (Plus is_space) (Seq (Grp "H" re_H)
      (Seq (chr ":") (Seq (Grp "M" re_M) Eps))))))))).
Proof. split; reflexivity. Qed.

(** Month first: the groups of "%m/%d/%Y %H:%M" on mm/dd/yyyy hh:mm. *)
Lemma month_first_matches (a b y H M : Z) :
  1 <= a <= 12 -> 1 <= b <= 31 -> 1000 <= y <= 9999 ->
  0 <= H <= 23 -> 0 <= M <= 59 ->
  exists r whole,
    pattern "%m/%d/%Y %H:%M" = Some r /\
    re_match r (two_digits a ++ "/" ++ two_digits b ++ "/" ++ four_digits y
                ++ " " ++ two_digits H ++ ":" ++ two_digits M)
    = Some (whole,
            [("m", two_digits a); ("d", two_digits b); ("Y", four_digits y);
             ("H", two_digits H); ("M", two_digits M)], "").
Proof.
  intros Ra Rb Ry RH RM. eexists. eexists.
  split; [apply (proj1 pattern_mdY)|]. unfold re_match.
  rewrite rmatch_seq. apply rmatch_month; [assumption|].
  cbn [append]. rewrite rmatch_seq, rmatch_chr. rewrite rmatch_seq.
  apply rmatch_day; [assumption|].
  cbn [append]. rewrite rmatch_seq, rmatch_chr.
  apply rmatch_year_time; try assumption.
  cbn [append app]. reflexivity.
Qed.

(** Day first: the groups of "%d/%m/%Y %H:%M" on dd/mm/yyyy hh:mm. *)
Lemma day_first_matches (a b y H M : Z) :
  1 <= a <= 31 -> 1 <= b <= 12 -> 1000 <= y <= 9999 ->
  0 <= H <= 23 -> 0 <= M <= 59 ->
  exists r whole,
    pattern "%d/%m/%Y %H:%M" = Some r /\
    re_match r (two_digits a ++ "/" ++ two_digits b ++ "/" ++ four_digits y
                ++ " " ++ two_digits H ++ ":" ++ two_digits M)
    = Some (whole,
            [("d", two_digits a); ("m", two_digits b); ("Y", four_digits y);
             ("H", two_digits H); ("M", two_digits M)], "").
Proof.
  intros Ra Rb Ry RH RM. eexists. eexists.
  split; [apply (proj2 pattern_mdY)|]. unfold re_match.
  rewrite rmatch_seq. apply rmatch_day; [assumption|].
  cbn [append]. rewrite rmatch_seq, rmatch_chr. rewrite rmatch_seq.
  apply rmatch_month; [assumption|].
  cbn [append]. rewrite rmatch_seq, rmatch_chr.
  apply rmatch_year_time; try assumption.
  cbn [append app]. reflexivity.
Qed.

Lemma convert_slash_date (f : string) (found : caps) (H M : Z)
      (r : re) (whole s : string) (vy vm vd : Z) :
  pattern f = Some r -> re_match r s = Some (whole, found, "") ->
  set_fields found found fields0 = Some (mk_fields vy vm vd H M 0) ->
  valid_date vy vm vd = true -> 0 <= H <= 23 -> 0 <= M <= 59 ->
  convert s f = Some (mk_datetime vy vm vd H M 0 0).
Proof.
  intros P E F V RH RM. unfold convert, strptime. rewrite P, E, F.
  assert (V2 : valid_date vy 1 1 = true).
  { unfold valid_date in *.
    repeat (apply andb_prop in V; destruct V as [V ?]).
    repeat (apply andb_true_intro; split); auto. }
  rewrite V, V2.
  cbn [andb tm_year tm_mon tm_mday tm_hour tm_min tm_sec tm_wday].
  unfold datetime_new. rewrite V.
  pose proof (weekday_range vy vm vd) as W.
  assert (V3 : valid_time H M 0 (weekday vy vm vd) = true).
  { unfold valid_time.
    repeat (apply andb_true_intro; split); apply Z.leb_le; lia. }
  rewrite V3. reflexivity.
Qed.

Lemma valid_date_intro (y m d : Z) :
  1000 <= y <= 9999 -> 1 <= m <= 12 -> 1 <= d <= days_in_month y m ->
  valid_date y m d = true.
Proof.
  intros. unfold valid_date.
  repeat (apply andb_true_intro; split); apply Z.leb_le; lia.
Qed.

Lemma combined_head :
  combined = "%H:%M %m/%d/%Y" :: "%m/%d/%Y %H:%M" :: "%H:%M %d/%m/%Y"
             :: "%d/%m/%Y %H:%M" :: skipn 4 combined.
Proof. reflexivity. Qed.

Lemma slash_date_shape (a b y H M : Z) :
  exists c1 c2 rest,
    slash_date_time a b y H M = String c1 (String c2 (String "/" rest)) /\
    is_digit c2 = true.
Proof.
  do 3 eexists. split; [reflexivity|].
  apply digit_char_digit. Z.div_mod_to_equations. lia.
Qed.

(** Neither the shortcut, the system format, a time-only format nor a
    "time date" format takes such a string. *)
Lemma slash_date_early_stages (a b y H M : Z) :
  is_now (slash_date_time a b y H M) = false /\
  convert (slash_date_time a b y H M) SYSTEM_FORMAT = None /\
  snd (try_formats (slash_date_time a b y H M) TIME_FORMATS) = None /\
  convert (slash_date_time a b y H M) "%H:%M %m/%d/%Y" = None /\
  convert (slash_date_time a b y H M) "%H:%M %d/%m/%Y" = None.
Proof.
  destruct (slash_date_shape a b y H M) as (c1 & c2 & rest & E & D).
  split; [|split; [|split; [|split]]].
  - destruct (is_now _) eqn:N; [|reflexivity].
    apply is_now_length in N. discriminate.
  - rewrite E. unfold convert, strptime. rewrite pattern_system.
    unfold re_match. now rewrite rmatch_seq, year_fails_on_slash.
  - apply try_formats_snd_none. intros f Hf. rewrite E.
    apply hour_first_format_fails; auto.
  - rewrite E. apply hour_first_format_fails; [|assumption].
    right. exists "%m/%d/%Y". split; [simpl; auto|].
    exists "%H:%M". split; [simpl; auto|reflexivity].
  - rewrite E. apply hour_first_format_fails; [|assumption].
    right. exists "%d/%m/%Y". split; [simpl; auto|].
    exists "%H:%M". split; [simpl; auto|reflexivity].
Qed.

(** A number above 12 is no month. *)
Lemma month_fails_above_12 {A : Type} (a : Z) (r2 : re) (rest : string)
      (k : string -> caps -> string -> option A) :
  13 <= a <= 31 ->
  rmatch (Seq (Grp "m" re_m) (Seq (chr "/") r2))
         (two_digits a ++ String "/" rest) k = None.
Proof.
  intros R. enum_from a 13 19%nat; eval_two_digits; reflexivity.
Qed.

(** X10. A date written nn/nn/yyyy before a time is read month first
    whenever the first number can be a month and the second a day of that
    month, also when the other reading would be a date too. *)
Theorem parse_datetime_month_first (now : datetime) (rebase : bool)
        (a b y H M : Z) :
  1 <= a <= 12 -> 1 <= b <= days_in_month y a -> 1000 <= y <= 9999 ->
  0 <= H <= 23 -> 0 <= M <= 59 ->
  parse_datetime now (Some (slash_date_time a b y H M)) rebase
  = Ok (mk_datetime y a b H M 0 0).
Proof.
  intros Ra Rb Ry RH RM.
  pose proof (days_in_month_le y a) as L.
  destruct (slash_date_early_stages a b y H M) as (N & S & T & F0 & _).
  destruct (month_first_matches a b y H M) as (r & whole & P & E); try lia.
  destruct (set_fields_mdY (two_digits a) (two_digits b) (four_digits y)
              (two_digits H) (two_digits M) a b y H M) as [F _];
    try (apply py_int_two_digits; lia); try (apply py_int_four_digits; lia).
  pose proof (convert_slash_date _ _ H M r whole _ y a b P E F
                (valid_date_intro y a b Ry Ra Rb) RH RM) as C.
  rewrite parse_datetime_stages, N, S, T, combined_head.
  cbn [try_formats]. unfold slash_date_time in *. rewrite F0, C. reflexivity.
Qed.

(** X11. When the first number is above 12, the date is read day first,
    provided that gives a day of the month named by the second number. *)
Theorem parse_datetime_day_first (now : datetime) (rebase : bool)
        (a b y H M : Z) :
  13 <= a <= days_in_month y b -> 1 <= b <= 12 -> 1000 <= y <= 9999 ->
  0 <= H <= 23 -> 0 <= M <= 59 ->
  parse_datetime now (Some (slash_date_time a b y H M)) rebase
  = Ok (mk_datetime y b a H M 0 0).
Proof.
  intros Ra Rb Ry RH RM.
  pose proof (days_in_month_le y b) as L.
  destruct (slash_date_early_stages a b y H M) as (N & S & T & F0 & F2).
  destruct (day_first_matches a b y H M) as (r & whole & P & E); try lia.
  destruct (set_fields_mdY (two_digits a) (two_digits b) (four_digits y)
              (two_digits H) (two_digits M) a b y H M) as [_ F];
    try (apply py_int_two_digits; lia); try (apply py_int_four_digits; lia).
  pose proof (convert_slash_date _ _ H M r whole _ y b a P E F
                (valid_date_intro y b a Ry Rb ltac:(lia)) RH RM) as C.
  assert (F1 : convert (slash_date_time a b y H M) "%m/%d/%Y %H:%M" = None).
  { unfold convert, strptime. rewrite (proj1 pattern_mdY). unfold re_match.
    unfold slash_date_time. cbn [append].
    rewrite month_fails_above_12 by lia. reflexivity. }
  rewrite parse_datetime_stages, N, S, T, combined_head.
  cbn [try_formats]. unfold slash_date_time in *. rewrite F0, F1, F2, C.
  reflexivity.
Qed.

Lemma parse_datetime_month_first_witness :
  parse_datetime sample_now (Some "05/06/2021 07:08") true
  = Ok (mk_datetime 2021 5 6 7 8 0 0).
Proof.
  apply (parse_datetime_month_first sample_now true 5 6 2021 7 8);
    try lia.
  change (days_in_month 2021 5) with 31. lia.
Defined.

Lemma parse_datetime_day_first_witness :
  parse_datetime sample_now (Some "29/02/2024 23:59") false
  = Ok (mk_datetime 2024 2 29 23 59 0 0).
Proof.
  apply (parse_datetime_day_first sample_now false 29 2 2024 23 59);
    try lia.
  change (days_in_month 2024 2) with 29. lia.
Defined.

(** ** Where a format matches and does not convert *)

(** C4 as stated fails at "12:30:60": the time-only format "%H:%M:%S"
    matches the whole string, with second 60, and [parse_datetime] raises
    instead of combining the parsed time with today's date. *)
Lemma time_only_as_stated_fails :
  ~ (forall fmt st,
        In fmt TIME_FORMATS -> strptime "12:30:60" fmt = Some st ->
        parse_datetime sample_now (Some "12:30:60") true
        = Ok (mk_datetime 2024 5 6 (tm_hour st) (tm_min st) (tm_sec st) 0)).
Proof.
  intros H.
  specialize (H "%H:%M:%S" (mk_struct_time 1900 1 1 12 30 60 0 1 (-1))).
  assert (Hin : In "%H:%M:%S" TIME_FORMATS) by (simpl; auto).
  specialize (H Hin eq_refl). discriminate H.
Qed.

(** C7 as stated fails twice.  The order: in [combined] the date-then-time
    format "%m/%d/%Y %H:%M" (second) comes before the time-then-date
    format "%H:%M %d/%m/%Y" (third), so the time+date concatenations are
    not all tried before the date+time ones.  The result: the combined
    format "%H:%M:%S %m/%d/%Y" parses the whole of "12:30:60 01/02/2020",
    with second 60, and [parse_datetime] returns no result for it. *)
Lemma combined_stage_as_stated_fails :
  ~ (forall i j f g,
        nth_error combined i = Some f -> nth_error combined j = Some g ->
        time_then_date f -> date_then_time g -> (i < j)%nat) /\
  ~ (forall f st,
        In f combined -> strptime "12:30:60 01/02/2020" f = Some st ->
        exists dt,
          parse_datetime sample_now (Some "12:30:60 01/02/2020") true = Ok dt).
Proof.
  split.
  - intros H.
    specialize (H 2%nat 1%nat "%H:%M %d/%m/%Y" "%m/%d/%Y %H:%M" eq_refl eq_refl).
    assert (X : (2 < 1)%nat); [|lia].
    apply H.
    + exists "%H:%M", "%d/%m/%Y". simpl. auto 10.
    + exists "%H:%M", "%m/%d/%Y". simpl. auto 10.
  - intros H.
    destruct (H "%H:%M:%S %m/%d/%Y"
                (mk_struct_time 2020 1 2 12 30 60 3 2 (-1))) as [dt E].
    + apply in_combined. exists "%H:%M:%S", "%m/%d/%Y". simpl. auto 10.
    + reflexivity.
    + discriminate E.
Qed.
